(** * calcul-thermique-3cl: the heat-loss engine of [app.py]

    A shallow embedding of the four classes of [app.py] ([Menuiserie],
    [Paroi], [Piece], [Projet]) and of the handlers of the Streamlit layer
    that build and change these objects, followed by the properties of the
    specification, each stated on these definitions.

    Numbers.  Python's numbers are modelled as exact rationals [Q]: integer
    and decimal literals are the rationals they denote, [+], [-], [*] are
    exact, [>] is the order of [Q].  Rounding of binary floating point is
    outside this model; equalities between amounts are therefore stated
    with [==] ([Qeq]) unless both sides are built by the same operations in
    the same order, where Leibniz equality is used.  Insulation years are
    integers ([Z]), as the interface supplies them.

    The exact model carries the statements that say which quantities the
    code combines and how objects are routed, stored and shared.  The
    statements that rounding decides (a comparison between two computed
    areas, a bound on a computed product, the total against the sum of the
    rows) are made on the same classes read with binary64 numbers, in
    [B64].

    Strings are byte strings (UTF-8, as the source file is encoded); [in]
    on strings is substring search, [==] is [String.eqb].

    Identifiers.  [str(uuid.uuid4())] is a fresh random string: each
    constructor takes it as its first argument. *)

From Stdlib Require Import QArith Lqa ZArith String List.
From Stdlib Require Import PrimFloat FloatOps SpecFloat.
From stdpp Require Import gmap strings list.
Import ListNotations.

Open Scope string_scope.
Open Scope list_scope.
Open Scope Q_scope.

(** Decimal literals of binary64 stand for the nearest double. *)
Set Warnings "-inexact-float".

(** ** Outcome of a call

    A Python call either returns a value or raises an exception, named here
    by its class.  No [raise] occurs in the embedded classes, so every
    embedded method ends in [Retourne]; the type is what lets a statement
    such as "the call fails with E" be written down at all. *)

Inductive resultat (A : Type) : Type :=
| Retourne (a : A)
| Leve (exc : string).
Arguments Retourne {A} a.
Arguments Leve {A} exc.

#[global] Instance resultat_ret : MRet resultat := fun A a => Retourne a.

#[global] Instance resultat_bind : MBind resultat := fun A B k r =>
  match r with
  | Retourne a => k a
  | Leve e => Leve e
  end.

(** [sum(...)] of Python: start from [0] and add the items left to right. *)
Definition somme (l : list Q) : Q := fold_left Qplus l 0.

(** [needle in hay] on strings. *)
Fixpoint contient (needle hay : string) : bool :=
  if String.prefix needle hay then true
  else match hay with
       | EmptyString => false
       | String _ reste => contient needle reste
       end.

(** ** class Menuiserie *)

Module Menuiserie.

Record t : Type := mk {
  id : string;
  nom : string;
  largeur : Q;
  hauteur : Q;
  surface : Q;
  vitrage_type : string;
  u_value : Q
}.

(** The dict literal of [__init__]. *)
Definition table_u : gmap string Q :=
  <["Triple vitrage" := 0.8]>
  (<["Double vitrage récent (VIR)" := 1.4]>
  (<["Double vitrage ancien" := 2.8]>
  (<["Simple vitrage" := 5.8]> ∅))).

Definition init (uid nom : string) (largeur hauteur : Q)
    (vitrage_type : string) : resultat t :=
  Retourne {|
    id := uid;
    nom := nom;
    largeur := largeur;
    hauteur := hauteur;
    surface := largeur * hauteur;
    vitrage_type := vitrage_type;
    u_value := default 2.8 (table_u !! vitrage_type)
  |}.

End Menuiserie.

(** ** class Paroi *)

Module Paroi.

Record t : Type := mk {
  id : string;
  nom : string;
  type_paroi : string;
  longueur : Q;
  hauteur_largeur : Q;
  surface_brute : Q;
  orientation : string;
  contact : string;
  menuiseries : list Menuiserie.t;
  u_value : Q;
  b_coef : Q
}.

(** The [if]/[elif] chain on the material. *)
Definition u_base (materiau : string) : Q :=
  if contient "Béton" materiau then 2.3
  else if contient "Pierre" materiau then 2.8
  else if contient "Brique" materiau then 1.5
  else 2.5.

(** The three successive [if]s on the year, each overwriting the last. *)
Definition facteur_iso (annee_iso : Z) : Q :=
  let f := 1.0 in
  let f := if (annee_iso >? 1980)%Z then 0.5 else f in
  let f := if (annee_iso >? 2005)%Z then 0.25 else f in
  let f := if (annee_iso >? 2015)%Z then 0.15 else f in
  f.

Definition init (uid nom type_paroi : string) (longueur hauteur_largeur : Q)
    (orientation contact : string) (annee_iso : Z) (materiau : string)
    : resultat t :=
  Retourne {|
    id := uid;
    nom := nom;
    type_paroi := type_paroi;
    longueur := longueur;
    hauteur_largeur := hauteur_largeur;
    surface_brute := longueur * hauteur_largeur;
    orientation := orientation;
    contact := contact;
    menuiseries := [];
    u_value := u_base materiau * facteur_iso annee_iso;
    b_coef := if String.eqb contact "Local Non Chauffé" then 0.95 else 1.0
  |}.

(** [self.menuiseries.append(menuiserie)]: the object after the call. *)
Definition avec_menuiseries (self : t) (ms : list Menuiserie.t) : t :=
  {| id := id self;
     nom := nom self;
     type_paroi := type_paroi self;
     longueur := longueur self;
     hauteur_largeur := hauteur_largeur self;
     surface_brute := surface_brute self;
     orientation := orientation self;
     contact := contact self;
     menuiseries := ms;
     u_value := u_value self;
     b_coef := b_coef self |}.

Definition ajouter_menuiserie (self : t) (menuiserie : Menuiserie.t)
    : resultat t :=
  Retourne (avec_menuiseries self (menuiseries self ++ [menuiserie])).

Definition get_surface_vitree (self : t) : Q :=
  somme (map Menuiserie.surface (menuiseries self)).

Definition get_surface_nette (self : t) : Q :=
  surface_brute self - get_surface_vitree self.

Definition calcul_deperditions (self : t) : Q :=
  let dp_opaque := get_surface_nette self * u_value self * b_coef self in
  let dp_vitree :=
    somme (map (fun m => Menuiserie.surface m * Menuiserie.u_value m
                         * b_coef self)
               (menuiseries self)) in
  dp_opaque + dp_vitree.

End Paroi.

(** ** class Piece

    The three collections hold references to [Paroi] objects.  The record
    is parametric in what stands for such a reference: the object's value
    ([Piece.t], enough for every read-only computation, which sees a
    snapshot) or its address in a store ([Memoire], where mutation and
    sharing are visible). *)

Module Piece.

Record t_ (E : Type) : Type := mk {
  id : string;
  nom : string;
  longueur : Q;
  largeur : Q;
  hauteur : Q;
  surface_hab : Q;
  volume : Q;
  murs : list E;
  planchers : list E;
  plafonds : list E
}.
Arguments mk {E}.
Arguments id {E}.
Arguments nom {E}.
Arguments longueur {E}.
Arguments largeur {E}.
Arguments hauteur {E}.
Arguments surface_hab {E}.
Arguments volume {E}.
Arguments murs {E}.
Arguments planchers {E}.
Arguments plafonds {E}.

Definition t : Type := t_ Paroi.t.

Definition init {E} (uid nom : string) (longueur largeur hauteur : Q)
    : resultat (t_ E) :=
  let surface_hab := longueur * largeur in
  Retourne {|
    id := uid;
    nom := nom;
    longueur := longueur;
    largeur := largeur;
    hauteur := hauteur;
    surface_hab := surface_hab;
    volume := surface_hab * hauteur;
    murs := [];
    planchers := [];
    plafonds := []
  |}.

Definition avec_collections {E} (self : t_ E) (ms sols plafs : list E)
    : t_ E :=
  {| id := id self;
     nom := nom self;
     longueur := longueur self;
     largeur := largeur self;
     hauteur := hauteur self;
     surface_hab := surface_hab self;
     volume := volume self;
     murs := ms;
     planchers := sols;
     plafonds := plafs |}.

(** The [if]/[elif]/[elif] of [ajouter_paroi], with no [else]:
    [type_paroi] is [paroi.type_paroi] and [e] the reference to [paroi]. *)
Definition ranger {E} (self : t_ E) (type_paroi : string) (e : E)
    : resultat (t_ E) :=
  if String.eqb type_paroi "MUR" then
    Retourne (avec_collections self (murs self ++ [e]) (planchers self)
                               (plafonds self))
  else if String.eqb type_paroi "PLANCHER" then
    Retourne (avec_collections self (murs self) (planchers self ++ [e])
                               (plafonds self))
  else if String.eqb type_paroi "PLAFOND" then
    Retourne (avec_collections self (murs self) (planchers self)
                               (plafonds self ++ [e]))
  else
    Retourne self.

Definition ajouter_paroi (self : t) (paroi : Paroi.t) : resultat t :=
  ranger self (Paroi.type_paroi paroi) paroi.

End Piece.

(** ** class Projet *)

(** A row of the itemized report (a dict with these three keys). *)
Record ligne : Type := mk_ligne {
  Element : string;
  Type_ : string;
  Deperdition : Q
}.

Module Projet.

Record t_ (E : Type) : Type := mk {
  pieces : list (Piece.t_ E);
  altitude : Z;
  zone_climatique : string;
  annee_construction : Z
}.
Arguments mk {E}.
Arguments pieces {E}.
Arguments altitude {E}.
Arguments zone_climatique {E}.
Arguments annee_construction {E}.

Definition t : Type := t_ Paroi.t.

Definition init {E} : resultat (t_ E) :=
  Retourne {| pieces := [];
              altitude := 0;
              zone_climatique := "H1";
              annee_construction := 1990 |}.

Definition psi_menuiserie : Q := 0.1.
Definition psi_plancher : Q := 0.35.
Definition psi_plafond : Q := 0.25.

(** One pass of [for fen in mur.menuiseries] over [pertes_pt]. *)
Definition pt_menuiseries (pertes_pt : Q) (fens : list Menuiserie.t) : Q :=
  fold_left
    (fun pertes_pt fen =>
       let perimetre :=
         (Menuiserie.largeur fen + Menuiserie.hauteur fen) * 2 in
       pertes_pt + perimetre * psi_menuiserie)
    fens pertes_pt.

(** [mur.contact in ["Extérieur", "Local Non Chauffé"]]. *)
Definition contact_deperditif (contact : string) : bool :=
  existsb (String.eqb contact) ["Extérieur"; "Local Non Chauffé"].

(** The body of [for mur in piece.murs] on the pair
    [(pertes_pt, longueur_murs_ext)]. *)
Definition pt_mur (etat : Q * Q) (mur : Paroi.t) : Q * Q :=
  let '(pertes_pt, longueur_murs_ext) := etat in
  let pertes_pt := pt_menuiseries pertes_pt (Paroi.menuiseries mur) in
  let longueur_murs_ext :=
    if contact_deperditif (Paroi.contact mur)
    then longueur_murs_ext + Paroi.longueur mur
    else longueur_murs_ext in
  (pertes_pt, longueur_murs_ext).

Definition pt_piece (etat : Q * Q) (piece : Piece.t) : Q * Q :=
  fold_left pt_mur (Piece.murs piece) etat.

Definition calcul_ponts_thermiques_auto (self : t) : Q :=
  let '(pertes_pt, longueur_murs_ext) :=
    fold_left pt_piece (pieces self) (0.0, 0.0) in
  let pertes_pt := pertes_pt + longueur_murs_ext * psi_plancher in
  let pertes_pt := pertes_pt + longueur_murs_ext * psi_plafond in
  pertes_pt.

(** One of the three inner loops of [calcul_global_deperditions] on the
    pair [(total_watts, details)]; [type_] is the loop's "Type" label. *)
Definition deperditions_parois (piece_nom type_ : string)
    (etat : Q * list ligne) (parois : list Paroi.t) : Q * list ligne :=
  fold_left
    (fun '(total_watts, details) paroi =>
       let d := Paroi.calcul_deperditions paroi in
       (total_watts + d,
        details ++ [ {| Element := piece_nom +:+ " - " +:+ Paroi.nom paroi;
                        Type_ := type_;
                        Deperdition := d |} ]))
    parois etat.

Definition deperditions_piece (etat : Q * list ligne) (piece : Piece.t)
    : Q * list ligne :=
  let etat := deperditions_parois (Piece.nom piece) "Mur+Baies" etat
                                  (Piece.murs piece) in
  let etat := deperditions_parois (Piece.nom piece) "Plancher" etat
                                  (Piece.planchers piece) in
  let etat := deperditions_parois (Piece.nom piece) "Plafond" etat
                                  (Piece.plafonds piece) in
  etat.

Definition calcul_global_deperditions (self : t) : Q * list ligne :=
  let '(total_watts, details) :=
    fold_left deperditions_piece (pieces self) (0.0, []) in
  let ponts := calcul_ponts_thermiques_auto self in
  let total_watts := total_watts + ponts in
  let details :=
    details ++ [ {| Element := "Global";
                    Type_ := "Ponts Thermiques";
                    Deperdition := ponts |} ] in
  (total_watts, details).

End Projet.

(** ** Handlers of the Streamlit layer

    Each handler is the body of its [if st.button(...)] or
    [if st.form_submit_button(...)], as a function of the values read from
    the widgets. *)

Module Interface.

(** "Créer la pièce": [Piece(...)] then [projet.pieces.append]. *)
Definition creer_piece (projet : Projet.t) (uid p_nom : string)
    (p_len p_wid p_h : Q) : resultat Projet.t :=
  nouvelle_piece ← Piece.init uid p_nom p_len p_wid p_h;
  mret {| Projet.pieces := Projet.pieces projet ++ [nouvelle_piece];
          Projet.altitude := Projet.altitude projet;
          Projet.zone_climatique := Projet.zone_climatique projet;
          Projet.annee_construction := Projet.annee_construction projet |}.

(** The wall form. *)
Record saisie_mur : Type := mk_saisie_mur {
  m_nom : string;
  m_long : Q;
  m_haut : Q;
  m_orient : string;
  m_contact : string;
  mat_choix : string;
  iso_annee : Z
}.

(** The options of the "Contact" select box. *)
Definition options_contact : list string :=
  ["Extérieur"; "Local Non Chauffé"; "Intérieur (Chauffé)"].

Definition message_mur_interieur : string :=
  "Les murs intérieurs ne comptent pas dans les déperditions.".

(** "Ajouter ce Mur": returns what [st.warning] displayed, if anything,
    and the room after the click. *)
Definition formulaire_mur (piece : Piece.t) (uid : string) (s : saisie_mur)
    : resultat (option string * Piece.t) :=
  if String.eqb (m_contact s) "Intérieur (Chauffé)" then
    mret (Some message_mur_interieur, piece)
  else
    new_mur ← Paroi.init uid (m_nom s) "MUR" (m_long s) (m_haut s)
                         (m_orient s) (m_contact s) (iso_annee s)
                         (mat_choix s);
    piece' ← Piece.ajouter_paroi piece new_mur;
    mret (None, piece').

(** "Ajouter Plancher Bas standard". *)
Definition bouton_plancher (piece : Piece.t) (uid : string)
    : resultat Piece.t :=
  sol ← Paroi.init uid "Sol" "PLANCHER" (Piece.longueur piece)
                   (Piece.largeur piece) "N/A" "Local Non Chauffé" 1990
                   "Béton";
  Piece.ajouter_paroi piece sol.

(** "Ajouter Plafond sous combles". *)
Definition bouton_plafond (piece : Piece.t) (uid : string)
    : resultat Piece.t :=
  plaf ← Paroi.init uid "Plafond" "PLAFOND" (Piece.longueur piece)
                    (Piece.largeur piece) "N/A" "Extérieur" 2000 "Placo";
  Piece.ajouter_paroi piece plaf.

End Interface.

(** ** Objects in a store

    [Paroi] objects are mutable and are reached through references: the
    same wall may sit in several collections.  A world is a store of
    [Paroi] objects and a project whose rooms hold addresses into it.
    [None] means that the address is not that of an object, which no Python
    call can produce. *)

Module Memoire.

Definition adr : Type := positive.

Record monde : Type := mk_monde {
  tas : gmap adr Paroi.t;
  projet : Projet.t_ adr
}.

(** [mur.ajouter_menuiserie(men)] where [mur] is the object at [a]. *)
Definition ajouter_menuiserie (a : adr) (men : Menuiserie.t) (w : monde)
    : option (resultat monde) :=
  self ← tas w !! a;
  Some (self' ← Paroi.ajouter_menuiserie self men;
        mret {| tas := <[a := self']> (tas w); projet := projet w |}).

(** What a read-only pass sees: every address replaced by the object it
    points to. *)
Definition charger_piece (h : gmap adr Paroi.t) (p : Piece.t_ adr)
    : Piece.t :=
  Piece.avec_collections
    {| Piece.id := Piece.id p;
       Piece.nom := Piece.nom p;
       Piece.longueur := Piece.longueur p;
       Piece.largeur := Piece.largeur p;
       Piece.hauteur := Piece.hauteur p;
       Piece.surface_hab := Piece.surface_hab p;
       Piece.volume := Piece.volume p;
       Piece.murs := [];
       Piece.planchers := [];
       Piece.plafonds := [] |}
    (omap (fun a => h !! a) (Piece.murs p))
    (omap (fun a => h !! a) (Piece.planchers p))
    (omap (fun a => h !! a) (Piece.plafonds p)).

Definition instantane (w : monde) : Projet.t :=
  {| Projet.pieces := map (charger_piece (tas w)) (Projet.pieces (projet w));
     Projet.altitude := Projet.altitude (projet w);
     Projet.zone_climatique := Projet.zone_climatique (projet w);
     Projet.annee_construction := Projet.annee_construction (projet w) |}.

(** [l.remove(x)] of Python on a list of references: the first item equal
    to [x] is taken out; [ValueError] when there is none.  Objects of the
    classes above define no [__eq__], so equality is identity, here
    equality of addresses. *)
Fixpoint retirer (x : adr) (l : list adr) : resultat (list adr) :=
  match l with
  | [] => Leve "ValueError"
  | y :: l' =>
      if decide (y = x) then Retourne l'
      else l'' ← retirer x l'; mret (y :: l'')
  end.

(** "Supprimer <mur>": [piece.murs.remove(mur)]. *)
Definition supprimer_mur (piece : Piece.t_ adr) (a : adr)
    : resultat (Piece.t_ adr) :=
  ms ← retirer a (Piece.murs piece);
  mret (Piece.avec_collections piece ms (Piece.planchers piece)
                               (Piece.plafonds piece)).

(** [piece.ajouter_paroi(paroi)] where [paroi] is the object at [a]. *)
Definition ajouter_paroi (h : gmap adr Paroi.t) (piece : Piece.t_ adr)
    (a : adr) : option (resultat (Piece.t_ adr)) :=
  paroi ← h !! a;
  Some (Piece.ranger piece (Paroi.type_paroi paroi) a).

End Memoire.

(** ** The formulas as the specification words them

    These definitions follow the text of the specification, not the code;
    the theorems below compare them with the code. *)

Module Spec.

(** Σ over a list. *)
Fixpoint Sigma (l : list Q) : Q :=
  match l with
  | [] => 0
  | x :: l' => x + Sigma l'
  end.

Definition Outdoor : string := "Extérieur".
Definition UnheatedSpace : string := "Local Non Chauffé".

Definition netOpaqueArea (e : Paroi.t) : Q :=
  Paroi.surface_brute e
  - Sigma (map Menuiserie.surface (Paroi.menuiseries e)).


Definition walls (p : Projet.t) : list Paroi.t :=
  flat_map Piece.murs (Projet.pieces p).

Definition lossBearing (w : Paroi.t) : bool :=
  String.eqb (Paroi.contact w) Outdoor
  || String.eqb (Paroi.contact w) UnheatedSpace.

Definition windowPerimeterLoss (w : Paroi.t) : Q :=
  Sigma (map (fun g => 2 * (Menuiserie.largeur g + Menuiserie.hauteur g)
                       * 0.1)
             (Paroi.menuiseries w)).


(** The estimate with the window term ranging over all the walls. *)
Definition estimateThermalBridges_allWindows (p : Projet.t) : Q :=
  let ws := List.filter lossBearing (walls p) in
  Sigma (map windowPerimeterLoss (walls p))
  + 0.35 * Sigma (map Paroi.longueur ws)
  + 0.25 * Sigma (map Paroi.longueur ws).

End Spec.

(** ** Vocabulary of the statements *)

Module Enonces.

(** [kw] occurs in [s]. *)
Definition mentionne (kw s : string) : Prop :=
  exists avant apres, s = avant +:+ kw +:+ apres.

(** The elements of a room, in the order in which the report visits
    them. *)
Definition elements (r : Piece.t) : list Paroi.t :=
  Piece.murs r ++ Piece.planchers r ++ Piece.plafonds r.

Definition tous_les_elements (p : Projet.t) : list Paroi.t :=
  flat_map elements (Projet.pieces p).

(** The report row of one element. *)
Definition ligne_de (piece_nom type_ : string) (e : Paroi.t) : ligne :=
  {| Element := piece_nom +:+ " - " +:+ Paroi.nom e;
     Type_ := type_;
     Deperdition := Paroi.calcul_deperditions e |}.

Definition lignes_piece (r : Piece.t) : list ligne :=
  map (ligne_de (Piece.nom r) "Mur+Baies") (Piece.murs r)
  ++ map (ligne_de (Piece.nom r) "Plancher") (Piece.planchers r)
  ++ map (ligne_de (Piece.nom r) "Plafond") (Piece.plafonds r).

(** Every element of a room sits in the collection of its category. *)
Definition bien_range (r : Piece.t) : Prop :=
  Forall (fun e => Paroi.type_paroi e = "MUR") (Piece.murs r)
  /\ Forall (fun e => Paroi.type_paroi e = "PLANCHER") (Piece.planchers r)
  /\ Forall (fun e => Paroi.type_paroi e = "PLAFOND") (Piece.plafonds r).

(** Every wall of a room is in contact with the outside or an unheated
    space. *)
Definition murs_deperditifs (r : Piece.t) : Prop :=
  Forall (fun w => Spec.lossBearing w = true) (Piece.murs r).

End Enonces.

(** ** The same classes on binary64

    Where rounding decides a property, the classes are read again with
    Python's [float], the IEEE 754 binary64 numbers, for which Rocq's
    primitive floats compute bit for bit: literals are the nearest doubles,
    [+], [-], [*] round to nearest even, [a > b] is false as soon as one
    side is a NaN.  The control flow, the constants and the order of the
    operations are those of the definitions above.  [sum] adds the items
    from left to right starting from 0, as the language reference words it.
    (The [int] 0 that [sum] starts from, and returns for no item, becomes
    the double 0.0 in the first operation it enters.) *)

Module B64.

#[local] Open Scope float_scope.

(** [sum(...)]. *)
Definition somme (l : list float) : float := fold_left PrimFloat.add l 0.

(** [a > b]. *)
Definition gt (a b : float) : bool := b <? a.

(** The real number a double stands for; [None] for infinities and NaN. *)
Definition valeur_exacte (x : float) : option Q :=
  match Prim2SF x with
  | S754_zero _ => Some 0%Q
  | S754_finite s m e =>
      Some ((if s then -1 else 1) * (Zpos m # 1) * Qpower 2 e)%Q
  | S754_infinity _ => None
  | S754_nan => None
  end.

(** The exact sum of the numbers a list of doubles stands for. *)
Definition somme_exacte (l : list float) : option Q :=
  fold_left (fun acc x =>
               match acc, valeur_exacte x with
               | Some a, Some v => Some (a + v)%Q
               | _, _ => None
               end)
            l (Some 0%Q).

Module Menuiserie.

Record t : Type := mk {
  id : string;
  nom : string;
  largeur : float;
  hauteur : float;
  surface : float;
  vitrage_type : string;
  u_value : float
}.

Definition table_u : gmap string float :=
  <["Triple vitrage" := 0.8]>
  (<["Double vitrage récent (VIR)" := 1.4]>
  (<["Double vitrage ancien" := 2.8]>
  (<["Simple vitrage" := 5.8]> ∅))).

Definition init (uid nom : string) (largeur hauteur : float)
    (vitrage_type : string) : resultat t :=
  Retourne {|
    id := uid;
    nom := nom;
    largeur := largeur;
    hauteur := hauteur;
    surface := largeur * hauteur;
    vitrage_type := vitrage_type;
    u_value := default 2.8 (table_u !! vitrage_type)
  |}.

End Menuiserie.

Module Paroi.

Record t : Type := mk {
  id : string;
  nom : string;
  type_paroi : string;
  longueur : float;
  hauteur_largeur : float;
  surface_brute : float;
  orientation : string;
  contact : string;
  menuiseries : list Menuiserie.t;
  u_value : float;
  b_coef : float
}.

Definition u_base (materiau : string) : float :=
  if contient "Béton" materiau then 2.3
  else if contient "Pierre" materiau then 2.8
  else if contient "Brique" materiau then 1.5
  else 2.5.

Definition facteur_iso (annee_iso : Z) : float :=
  let f := 1.0 in
  let f := if (annee_iso >? 1980)%Z then 0.5 else f in
  let f := if (annee_iso >? 2005)%Z then 0.25 else f in
  let f := if (annee_iso >? 2015)%Z then 0.15 else f in
  f.

Definition init (uid nom type_paroi : string)
    (longueur hauteur_largeur : float) (orientation contact : string)
    (annee_iso : Z) (materiau : string) : resultat t :=
  Retourne {|
    id := uid;
    nom := nom;
    type_paroi := type_paroi;
    longueur := longueur;
    hauteur_largeur := hauteur_largeur;
    surface_brute := longueur * hauteur_largeur;
    orientation := orientation;
    contact := contact;
    menuiseries := [];
    u_value := u_base materiau * facteur_iso annee_iso;
    b_coef := if String.eqb contact "Local Non Chauffé" then 0.95 else 1.0
  |}.

Definition avec_menuiseries (self : t) (ms : list Menuiserie.t) : t :=
  {| id := id self;
     nom := nom self;
     type_paroi := type_paroi self;
     longueur := longueur self;
     hauteur_largeur := hauteur_largeur self;
     surface_brute := surface_brute self;
     orientation := orientation self;
     contact := contact self;
     menuiseries := ms;
     u_value := u_value self;
     b_coef := b_coef self |}.

Definition ajouter_menuiserie (self : t) (menuiserie : Menuiserie.t)
    : resultat t :=
  Retourne (avec_menuiseries self (menuiseries self ++ [menuiserie])).

Definition get_surface_vitree (self : t) : float :=
  somme (map Menuiserie.surface (menuiseries self)).

Definition get_surface_nette (self : t) : float :=
  surface_brute self - get_surface_vitree self.

Definition calcul_deperditions (self : t) : float :=
  let dp_opaque := get_surface_nette self * u_value self * b_coef self in
  let dp_vitree :=
    somme (map (fun m => Menuiserie.surface m * Menuiserie.u_value m
                         * b_coef self)
               (menuiseries self)) in
  dp_opaque + dp_vitree.

End Paroi.

Module Piece.

Record t : Type := mk {
  id : string;
  nom : string;
  longueur : float;
  largeur : float;
  hauteur : float;
  surface_hab : float;
  volume : float;
  murs : list Paroi.t;
  planchers : list Paroi.t;
  plafonds : list Paroi.t
}.

Definition init (uid nom : string) (longueur largeur hauteur : float)
    : resultat t :=
  let surface_hab := longueur * largeur in
  Retourne {|
    id := uid;
    nom := nom;
    longueur := longueur;
    largeur := largeur;
    hauteur := hauteur;
    surface_hab := surface_hab;
    volume := surface_hab * hauteur;
    murs := [];
    planchers := [];
    plafonds := []
  |}.

Definition avec_collections (self : t) (ms sols plafs : list Paroi.t) : t :=
  {| id := id self;
     nom := nom self;
     longueur := longueur self;
     largeur := largeur self;
     hauteur := hauteur self;
     surface_hab := surface_hab self;
     volume := volume self;
     murs := ms;
     planchers := sols;
     plafonds := plafs |}.

Definition ajouter_paroi (self : t) (paroi : Paroi.t) : resultat t :=
  if String.eqb (Paroi.type_paroi paroi) "MUR" then
    Retourne (avec_collections self (murs self ++ [paroi]) (planchers self)
                               (plafonds self))
  else if String.eqb (Paroi.type_paroi paroi) "PLANCHER" then
    Retourne (avec_collections self (murs self) (planchers self ++ [paroi])
                               (plafonds self))
  else if String.eqb (Paroi.type_paroi paroi) "PLAFOND" then
    Retourne (avec_collections self (murs self) (planchers self)
                               (plafonds self ++ [paroi]))
  else
    Retourne self.

End Piece.

(** A row of the itemized report. *)
Record ligne : Type := mk_ligne {
  Element : string;
  Type_ : string;
  Deperdition : float
}.

Module Projet.

Record t : Type := mk {
  pieces : list Piece.t;
  altitude : Z;
  zone_climatique : string;
  annee_construction : Z
}.

Definition init : resultat t :=
  Retourne {| pieces := [];
              altitude := 0;
              zone_climatique := "H1";
              annee_construction := 1990 |}.

Definition psi_menuiserie : float := 0.1.
Definition psi_plancher : float := 0.35.
Definition psi_plafond : float := 0.25.

Definition pt_menuiseries (pertes_pt : float) (fens : list Menuiserie.t)
    : float :=
  fold_left
    (fun pertes_pt fen =>
       let perimetre :=
         (Menuiserie.largeur fen + Menuiserie.hauteur fen) * 2 in
       pertes_pt + perimetre * psi_menuiserie)
    fens pertes_pt.

Definition contact_deperditif (contact : string) : bool :=
  existsb (String.eqb contact) ["Extérieur"; "Local Non Chauffé"].

Definition pt_mur (etat : float * float) (mur : Paroi.t) : float * float :=
  let '(pertes_pt, longueur_murs_ext) := etat in
  let pertes_pt := pt_menuiseries pertes_pt (Paroi.menuiseries mur) in
  let longueur_murs_ext :=
    if contact_deperditif (Paroi.contact mur)
    then longueur_murs_ext + Paroi.longueur mur
    else longueur_murs_ext in
  (pertes_pt, longueur_murs_ext).

Definition pt_piece (etat : float * float) (piece : Piece.t)
    : float * float :=
  fold_left pt_mur (Piece.murs piece) etat.

Definition calcul_ponts_thermiques_auto (self : t) : float :=
  let '(pertes_pt, longueur_murs_ext) :=
    fold_left pt_piece (pieces self) (0.0, 0.0) in
  let pertes_pt := pertes_pt + longueur_murs_ext * psi_plancher in
  let pertes_pt := pertes_pt + longueur_murs_ext * psi_plafond in
  pertes_pt.

Definition deperditions_parois (piece_nom type_ : string)
    (etat : float * list ligne) (parois : list Paroi.t)
    : float * list ligne :=
  fold_left
    (fun '(total_watts, details) paroi =>
       let d := Paroi.calcul_deperditions paroi in
       (total_watts + d,
        details ++ [ {| Element := piece_nom +:+ " - " +:+ Paroi.nom paroi;
                        Type_ := type_;
                        Deperdition := d |} ]))
    parois etat.

Definition deperditions_piece (etat : float * list ligne) (piece : Piece.t)
    : float * list ligne :=
  let etat := deperditions_parois (Piece.nom piece) "Mur+Baies" etat
                                  (Piece.murs piece) in
  let etat := deperditions_parois (Piece.nom piece) "Plancher" etat
                                  (Piece.planchers piece) in
  let etat := deperditions_parois (Piece.nom piece) "Plafond" etat
                                  (Piece.plafonds piece) in
  etat.

Definition calcul_global_deperditions (self : t) : float * list ligne :=
  let '(total_watts, details) :=
    fold_left deperditions_piece (pieces self) (0.0, []) in
  let ponts := calcul_ponts_thermiques_auto self in
  let total_watts := total_watts + ponts in
  let details :=
    details ++ [ {| Element := "Global";
                    Type_ := "Ponts Thermiques";
                    Deperdition := ponts |} ] in
  (total_watts, details).

(** Number of envelope elements of a project. *)
Definition nombre_elements (self : t) : nat :=
  length (flat_map (fun r => Piece.murs r ++ Piece.planchers r
                             ++ Piece.plafonds r)
                   (pieces self)).

End Projet.

(** The handlers of the Streamlit layer that the statements below are
    about. *)
Module Interface.

Record saisie : Type := mk_saisie {
  f_nom : string;
  f_w : float;
  f_h : float;
  f_type : string
}.

Definition message_trop_grande : string :=
  "Impossible: La fenêtre est plus grande que le mur restant !".

(** The "Ajouter" button of a wall: the only check on the size of a window
    is made here, by the caller of [ajouter_menuiserie].  Returns what
    [st.error] displayed, if anything, and the wall after the click. *)
Definition bouton_ajouter (mur : Paroi.t) (uid : string) (s : saisie)
    : resultat (option string * Paroi.t) :=
  men ← Menuiserie.init uid (f_nom s) (f_w s) (f_h s) (f_type s);
  if gt (Menuiserie.surface men) (Paroi.get_surface_nette mur) then
    mret (Some message_trop_grande, mur)
  else
    mur' ← Paroi.ajouter_menuiserie mur men;
    mret (None, mur').

(** A session: the button pressed once per entry, in order. *)
Fixpoint clics (mur : Paroi.t) (saisies : list (string * saisie))
    : resultat Paroi.t :=
  match saisies with
  | [] => mret mur
  | (uid, s) :: suite =>
      r ← bouton_ajouter mur uid s;
      clics (snd r) suite
  end.

(** "Ajouter Plancher Bas standard". *)
Definition bouton_plancher (piece : Piece.t) (uid : string)
    : resultat Piece.t :=
  sol ← Paroi.init uid "Sol" "PLANCHER" (Piece.longueur piece)
                   (Piece.largeur piece) "N/A" "Local Non Chauffé" 1990
                   "Béton";
  Piece.ajouter_paroi piece sol.

(** "Ajouter Plafond sous combles". *)
Definition bouton_plafond (piece : Piece.t) (uid : string)
    : resultat Piece.t :=
  plaf ← Paroi.init uid "Plafond" "PLAFOND" (Piece.longueur piece)
                    (Piece.largeur piece) "N/A" "Extérieur" 2000 "Placo";
  Piece.ajouter_paroi piece plaf.

End Interface.

(** *** Scenarios on binary64 *)

Module Exemples.

(** The 5 m x 2.5 m wall of the specification's scenarios. *)
Definition mur_nord : resultat Paroi.t :=
  Paroi.init "m-1" "Mur Nord" "MUR" 5 2.5 "Nord" "Extérieur" 0
             "Parpaing Creux".

(** A wall of 1.2 m x 1.0 m and two entries of the window form, of
    0.1 m x 1.2 m and 0.9 m x 1.2 m, and a third of 5 m x 2.6 m. *)
Definition petit_mur : resultat Paroi.t :=
  Paroi.init "m-2" "Mur Est" "MUR" 1.2 1.0 "Est" "Extérieur" 0 "Brique".

Definition imposte : Interface.saisie :=
  {| Interface.f_nom := "Imposte";
     Interface.f_w := 0.1;
     Interface.f_h := 1.2;
     Interface.f_type := "Simple vitrage" |}.

Definition vitrine : Interface.saisie :=
  {| Interface.f_nom := "Vitrine";
     Interface.f_w := 0.9;
     Interface.f_h := 1.2;
     Interface.f_type := "Simple vitrage" |}.

Definition grande_baie : Interface.saisie :=
  {| Interface.f_nom := "Baie";
     Interface.f_w := 5;
     Interface.f_h := 2.6;
     Interface.f_type := "Simple vitrage" |}.

(** A room with three floors of gross areas 1e16, 0.4 and -1e16 m2 (the
    constructors accept any dimension), each of transmittance 2.5, alone in
    a project. *)
Definition projet_trois_sols : resultat Projet.t :=
  s1 ← Paroi.init "s-1" "Sol 1" "PLANCHER" 1e16 1.0 "N/A" "Extérieur" 0
                  "Placo";
  s2 ← Paroi.init "s-2" "Sol 2" "PLANCHER" 0.4 1.0 "N/A" "Extérieur" 0
                  "Placo";
  s3 ← Paroi.init "s-3" "Sol 3" "PLANCHER" (-1e16) 1.0 "N/A" "Extérieur" 0
                  "Placo";
  piece ← Piece.init "p-1" "Hangar" 5 4 2.5;
  piece ← Piece.ajouter_paroi piece s1;
  piece ← Piece.ajouter_paroi piece s2;
  piece ← Piece.ajouter_paroi piece s3;
  projet ← Projet.init;
  mret {| Projet.pieces := Projet.pieces projet ++ [piece];
          Projet.altitude := Projet.altitude projet;
          Projet.zone_climatique := Projet.zone_climatique projet;
          Projet.annee_construction := Projet.annee_construction projet |}.

End Exemples.

End B64.

(** ** Scenarios

    Concrete objects, built the way the interface builds them. *)

Module Exemples.

(** [projet.pieces.append(piece)], as the "Créer la pièce" button does. *)
Definition avec_piece (projet : Projet.t) (piece : Piece.t) : Projet.t :=
  {| Projet.pieces := Projet.pieces projet ++ [piece];
     Projet.altitude := Projet.altitude projet;
     Projet.zone_climatique := Projet.zone_climatique projet;
     Projet.annee_construction := Projet.annee_construction projet |}.

(** The 5 m x 2.5 m wall of the specification's scenarios. *)
Definition mur_nord (contact : string) : resultat Paroi.t :=
  Paroi.init "m-1" "Mur Nord" "MUR" 5 2.5 "Nord" contact 0 "Parpaing Creux".

(** The same wall after one window of [w] x [h] was put on it. *)
Definition mur_vitre (contact : string) (w h : Q) : resultat Paroi.t :=
  mur ← mur_nord contact;
  fen ← Menuiserie.init "f-1" "Fenetre 1" w h "Simple vitrage";
  Paroi.ajouter_menuiserie mur fen.

(** A project of one room whose only element is that wall. *)
Definition projet_un_mur (contact : string) (w h : Q) : resultat Projet.t :=
  mur ← mur_vitre contact w h;
  piece ← Piece.init "p-1" "Salon" 5 4 2.5;
  piece ← Piece.ajouter_paroi piece mur;
  projet ← Projet.init;
  mret (avec_piece projet piece).

(** An element whose category is none of the three. *)
Definition toiture : resultat Paroi.t :=
  Paroi.init "t-1" "Toit" "TOITURE" 5 4 "N/A" "Extérieur" 2000 "Placo".

(** A world in which the wall at address 1 is shared by two rooms and
    the wall at address 2 belongs to the second one only. *)
Definition monde_partage : option Memoire.monde :=
  match mur_nord "Extérieur", mur_nord "Local Non Chauffé",
        Piece.init (E := Memoire.adr) "p-1" "Salon" 5 4 2.5,
        Piece.init (E := Memoire.adr) "p-2" "Cuisine" 3 4 2.5,
        Projet.init (E := Memoire.adr) with
  | Retourne m1, Retourne m2, Retourne p1, Retourne p2, Retourne projet =>
      Some {| Memoire.tas := <[2%positive := m2]> (<[1%positive := m1]> ∅);
              Memoire.projet :=
                {| Projet.pieces :=
                     [ Piece.avec_collections p1 [1%positive] [] [];
                       Piece.avec_collections p2 [1%positive; 2%positive]
                                              [] [] ];
                   Projet.altitude := Projet.altitude projet;
                   Projet.zone_climatique := Projet.zone_climatique projet;
                   Projet.annee_construction :=
                     Projet.annee_construction projet |} |}
  | _, _, _, _, _ => None
  end.

(** The room of [projet_un_mur] after "Ajouter Plancher Bas standard" and
    "Ajouter Plafond sous combles", alone in a project. *)
Definition projet_un_mur_sol_plafond (contact : string) (w h : Q)
    : resultat Projet.t :=
  mur ← mur_vitre contact w h;
  piece ← Piece.init "p-1" "Salon" 5 4 2.5;
  piece ← Piece.ajouter_paroi piece mur;
  piece ← Interface.bouton_plancher piece "s-1";
  piece ← Interface.bouton_plafond piece "c-1";
  projet ← Projet.init;
  mret (avec_piece projet piece).

End Exemples.

(** * Properties *)

(** ** Sums *)

Lemma fold_left_Qplus_Sigma (l : list Q) (acc : Q) :
  fold_left Qplus l acc == acc + Spec.Sigma l.
Proof.
  revert acc; induction l as [|x l IH]; intros acc; simpl.
  - ring.
  - rewrite IH. ring.
Qed.

Lemma somme_Sigma (l : list Q) : somme l == Spec.Sigma l.
Proof. unfold somme. rewrite fold_left_Qplus_Sigma. ring. Qed.

Lemma Sigma_app (l1 l2 : list Q) :
  Spec.Sigma (l1 ++ l2) == Spec.Sigma l1 + Spec.Sigma l2.
Proof.
  induction l1 as [|x l1 IH]; simpl.
  - ring.
  - rewrite IH. ring.
Qed.

Lemma Sigma_map_scale {A} (f : A -> Q) (c : Q) (l : list A) :
  Spec.Sigma (map (fun x => f x * c) l) == Spec.Sigma (map f l) * c.
Proof.
  induction l as [|x l IH]; simpl.
  - ring.
  - rewrite IH. ring.
Qed.

Lemma surface_nette_netOpaqueArea (e : Paroi.t) :
  Paroi.get_surface_nette e == Spec.netOpaqueArea e.
Proof.
  unfold Paroi.get_surface_nette, Paroi.get_surface_vitree, Spec.netOpaqueArea.
  rewrite somme_Sigma. reflexivity.
Qed.

(** ** C1 *)


(** ** C2: the thermal-bridge estimate *)

Lemma pt_menuiseries_Sigma (fens : list Menuiserie.t) (acc : Q) :
  Projet.pt_menuiseries acc fens
  == acc + Spec.Sigma
             (map (fun g => 2 * (Menuiserie.largeur g + Menuiserie.hauteur g)
                            * 0.1) fens).
Proof.
  unfold Projet.pt_menuiseries.
  revert acc; induction fens as [|g fens IH]; intros acc; simpl.
  - ring.
  - rewrite IH. unfold Projet.psi_menuiserie. ring.
Qed.

Lemma contact_deperditif_lossBearing (w : Paroi.t) :
  Projet.contact_deperditif (Paroi.contact w) = Spec.lossBearing w.
Proof.
  unfold Projet.contact_deperditif, Spec.lossBearing; simpl.
  now rewrite orb_false_r.
Qed.

Lemma pt_murs_Sigma (ws : list Paroi.t) (pertes longueurs : Q) :
  fst (fold_left Projet.pt_mur ws (pertes, longueurs))
  == pertes + Spec.Sigma (map Spec.windowPerimeterLoss ws)
  /\ snd (fold_left Projet.pt_mur ws (pertes, longueurs))
     == longueurs
        + Spec.Sigma (map Paroi.longueur (List.filter Spec.lossBearing ws)).
Proof.
  revert pertes longueurs; induction ws as [|w ws IH]; intros pertes longueurs.
  - simpl. split; ring.
  - cbn [fold_left Projet.pt_mur map List.filter].
    rewrite contact_deperditif_lossBearing.
    destruct (IH (Projet.pt_menuiseries pertes (Paroi.menuiseries w))
                 (if Spec.lossBearing w then longueurs + Paroi.longueur w
                  else longueurs)) as [Hp Hl].
    rewrite Hp, Hl, pt_menuiseries_Sigma. clear Hp Hl.
    unfold Spec.windowPerimeterLoss at 2.
    destruct (Spec.lossBearing w); simpl; split; ring.
Qed.

Lemma pt_pieces_Sigma (ps : list Piece.t) (pertes longueurs : Q) :
  fst (fold_left Projet.pt_piece ps (pertes, longueurs))
  == pertes
     + Spec.Sigma (map Spec.windowPerimeterLoss (flat_map Piece.murs ps))
  /\ snd (fold_left Projet.pt_piece ps (pertes, longueurs))
     == longueurs
        + Spec.Sigma (map Paroi.longueur
                          (List.filter Spec.lossBearing
                                       (flat_map Piece.murs ps))).
Proof.
  revert pertes longueurs; induction ps as [|p ps IH]; intros pertes longueurs.
  - simpl. split; ring.
  - cbn [fold_left flat_map]. unfold Projet.pt_piece at 2 4.
    destruct (fold_left Projet.pt_mur (Piece.murs p) (pertes, longueurs))
      as [pertes' longueurs'] eqn:E.
    destruct (pt_murs_Sigma (Piece.murs p) pertes longueurs) as [Hp Hl].
    rewrite E in Hp, Hl; simpl in Hp, Hl.
    destruct (IH pertes' longueurs') as [Hp' Hl'].
    rewrite Hp', Hl', Hp, Hl. clear Hp' Hl' Hp Hl.
    rewrite List.filter_app, !map_app, !Sigma_app.
    split; ring.
Qed.

(** What the estimator computes, for every project. *)
Lemma ponts_thermiques_allWindows (p : Projet.t) :
  Projet.calcul_ponts_thermiques_auto p
  == Spec.estimateThermalBridges_allWindows p.
Proof.
  unfold Projet.calcul_ponts_thermiques_auto,
         Spec.estimateThermalBridges_allWindows, Spec.walls.
  destruct (pt_pieces_Sigma (Projet.pieces p) 0.0 0.0) as [Hp Hl].
  destruct (fold_left Projet.pt_piece (Projet.pieces p) (0.0, 0.0))
    as [pertes longueurs].
  simpl in Hp, Hl. rewrite Hp, Hl.
  unfold Projet.psi_plancher, Projet.psi_plafond. ring.
Qed.





(** ** C3: windows larger than the wall *)

(** C3. [ajouter_menuiserie] never fails: it appends the unit whatever its
    size.  The size check is made by its caller, the "Ajouter" handler: it
    shows an error and leaves the element exactly as it was when, and only
    when, the area of the new unit is greater than the current net opaque
    area of the element, both as the code computes them in binary64;
    otherwise it appends the unit.  A net opaque area that is not negative
    is therefore not guaranteed: the method accepts any unit, and through
    the handler rounding can still leave a negative area, as on the
    1.2 x 1.0 wall, which accepts 0.1 x 1.2 then 0.9 x 1.2 and ends with a
    negative net opaque area. *)
Theorem ajout_menuiserie_garde_par_appelant :
  (forall mur men,
     B64.Paroi.ajouter_menuiserie mur men
     = Retourne (B64.Paroi.avec_menuiseries
                   mur (B64.Paroi.menuiseries mur ++ [men])))
  /\ (forall mur uid s,
        exists men,
          B64.Menuiserie.init uid (B64.Interface.f_nom s)
                              (B64.Interface.f_w s) (B64.Interface.f_h s)
                              (B64.Interface.f_type s) = Retourne men
          /\ (B64.gt (B64.Menuiserie.surface men)
                     (B64.Paroi.get_surface_nette mur) = true ->
              B64.Interface.bouton_ajouter mur uid s
              = Retourne (Some B64.Interface.message_trop_grande, mur))
          /\ (B64.gt (B64.Menuiserie.surface men)
                     (B64.Paroi.get_surface_nette mur) = false ->
              B64.Interface.bouton_ajouter mur uid s
              = Retourne (None,
                          B64.Paroi.avec_menuiseries
                            mur (B64.Paroi.menuiseries mur ++ [men]))))
  /\ (exists mur mur',
        B64.Exemples.petit_mur = Retourne mur
        /\ (0 <=? B64.Paroi.get_surface_nette mur)%float = true
        /\ B64.Interface.clics mur [("f-1", B64.Exemples.imposte);
                                    ("f-2", B64.Exemples.vitrine)]
           = Retourne mur'
        /\ length (B64.Paroi.menuiseries mur') = 2%nat
        /\ (B64.Paroi.get_surface_nette mur' <? 0)%float = true).
Proof.
  split; [reflexivity|]. split.
  - intros mur uid s. eexists. split; [reflexivity|].
    unfold B64.Interface.bouton_ajouter. cbn.
    split; intros ->; reflexivity.
  - do 2 eexists. split; [reflexivity|].
    split; [vm_compute; reflexivity|].
    split; [vm_compute; reflexivity|].
    split; vm_compute; reflexivity.
Qed.

(** On the 12.5 m2 wall, [ajouter_menuiserie] accepts a 13 m2 unit: the
    call returns, the unit is hosted and the net opaque area is negative. *)
Lemma ajouter_menuiserie_trop_grande :
  exists mur fen mur',
    B64.Exemples.mur_nord = Retourne mur
    /\ B64.Menuiserie.init "f-1" "Baie" 5 2.6 "Simple vitrage" = Retourne fen
    /\ B64.gt (B64.Menuiserie.surface fen
               + B64.somme (map B64.Menuiserie.surface
                                (B64.Paroi.menuiseries mur)))%float
              (B64.Paroi.surface_brute mur) = true
    /\ B64.Paroi.ajouter_menuiserie mur fen = Retourne mur'
    /\ B64.Paroi.ajouter_menuiserie mur fen <> Leve "OversizedGlazing"
    /\ B64.Paroi.menuiseries mur' = [fen]
    /\ (B64.Paroi.get_surface_nette mur' <? 0)%float = true.
Proof.
  do 3 eexists.
  split; [reflexivity|]. split; [reflexivity|].
  split; [vm_compute; reflexivity|].
  split; [reflexivity|].
  split; [discriminate|].
  split; [reflexivity|].
  vm_compute; reflexivity.
Qed.

Lemma ajout_menuiserie_garde_par_appelant_witness :
  exists mur,
    B64.Exemples.mur_nord = Retourne mur
    /\ B64.Interface.bouton_ajouter mur "f-1" B64.Exemples.grande_baie
       = Retourne (Some B64.Interface.message_trop_grande, mur)
    /\ exists men,
         B64.Menuiserie.init "f-2" "Imposte" 0.1 1.2 "Simple vitrage"
         = Retourne men
         /\ B64.Interface.bouton_ajouter mur "f-2" B64.Exemples.imposte
            = Retourne (None, B64.Paroi.avec_menuiseries mur [men]).
Proof.
  eexists. split; [reflexivity|].
  destruct ajout_menuiserie_garde_par_appelant as (_ & Hbouton & _).
  split.
  - match goal with
    | |- B64.Interface.bouton_ajouter ?m ?u ?s = _ =>
        destruct (Hbouton m u s) as (men & Hmen & Hrefus & _)
    end.
    apply Hrefus. injection Hmen as <-. vm_compute. reflexivity.
  - match goal with
    | |- exists men, _ /\ B64.Interface.bouton_ajouter ?m ?u ?s = _ =>
        destruct (Hbouton m u s) as (men & Hmen & _ & Haccepte)
    end.
    exists men. split; [exact Hmen|].
    apply Haccepte. injection Hmen as <-. vm_compute. reflexivity.
Defined.

(** ** C4: constructors and non-positive dimensions *)

(** C4. No constructor of the core entities checks its dimensions: for all
    arguments, whatever the sign of the lengths, [Menuiserie], [Paroi] and
    [Piece] return an object that carries the dimensions as supplied
    together with the products derived from them; none of them fails. *)
Theorem constructeurs_sans_validation :
  (forall uid nom largeur hauteur vitrage_type,
     exists m,
       Menuiserie.init uid nom largeur hauteur vitrage_type = Retourne m
       /\ Menuiserie.largeur m = largeur
       /\ Menuiserie.hauteur m = hauteur
       /\ Menuiserie.surface m = largeur * hauteur)
  /\ (forall uid nom type_paroi longueur hauteur_largeur orientation contact
             annee_iso materiau,
        exists e,
          Paroi.init uid nom type_paroi longueur hauteur_largeur orientation
                     contact annee_iso materiau = Retourne e
          /\ Paroi.longueur e = longueur
          /\ Paroi.hauteur_largeur e = hauteur_largeur
          /\ Paroi.surface_brute e = longueur * hauteur_largeur
          /\ Paroi.menuiseries e = [])
  /\ (forall uid nom longueur largeur hauteur,
        exists r : Piece.t,
          Piece.init uid nom longueur largeur hauteur = Retourne r
          /\ Piece.longueur r = longueur
          /\ Piece.largeur r = largeur
          /\ Piece.hauteur r = hauteur
          /\ Piece.surface_hab r = longueur * largeur
          /\ Piece.volume r = longueur * largeur * hauteur
          /\ Piece.murs r = [] /\ Piece.planchers r = []
          /\ Piece.plafonds r = []).
Proof.
  split; [|split]; intros; eexists; (split; [reflexivity|]);
    repeat split.
Qed.

(** A window of width -1, a wall of length 0 and a room of length -3 are
    all constructed. *)
Lemma constructeurs_dimensions_non_positives :
  (exists m,
     Menuiserie.init "f-1" "Fenetre 1" (-1) 1.2 "Simple vitrage" = Retourne m
     /\ Menuiserie.largeur m <= 0
     /\ Menuiserie.surface m < 0)
  /\ Menuiserie.init "f-1" "Fenetre 1" (-1) 1.2 "Simple vitrage"
     <> Leve "InvalidDimension"
  /\ (exists e,
        Paroi.init "m-1" "Mur Nord" "MUR" 0 2.5 "Nord" "Extérieur" 0 "Brique"
        = Retourne e
        /\ Paroi.longueur e <= 0)
  /\ (exists r : Piece.t,
        Piece.init "p-1" "Salon" (-3) 4 2.5 = Retourne r
        /\ Piece.longueur r <= 0).
Proof.
  split; [|split; [|split]].
  - eexists. split; [reflexivity|].
    split; vm_compute; [discriminate|reflexivity].
  - discriminate.
  - eexists. split; [reflexivity|]. vm_compute; discriminate.
  - eexists. split; [reflexivity|]. vm_compute; discriminate.
Qed.

(** ** C5: routing an element into a room *)

(** C5. [ajouter_paroi] appends the element to the walls, the floors or the
    ceilings according to its category "MUR", "PLANCHER" or "PLAFOND",
    leaving the two other collections as they were; for any other category
    the call returns without an error and leaves the three collections as
    they were. *)
Theorem ajouter_paroi_aiguillage (piece : Piece.t) (paroi : Paroi.t) :
  (Paroi.type_paroi paroi = "MUR" ->
   Piece.ajouter_paroi piece paroi
   = Retourne (Piece.avec_collections piece (Piece.murs piece ++ [paroi])
                 (Piece.planchers piece) (Piece.plafonds piece)))
  /\ (Paroi.type_paroi paroi = "PLANCHER" ->
      Piece.ajouter_paroi piece paroi
      = Retourne (Piece.avec_collections piece (Piece.murs piece)
                    (Piece.planchers piece ++ [paroi])
                    (Piece.plafonds piece)))
  /\ (Paroi.type_paroi paroi = "PLAFOND" ->
      Piece.ajouter_paroi piece paroi
      = Retourne (Piece.avec_collections piece (Piece.murs piece)
                    (Piece.planchers piece)
                    (Piece.plafonds piece ++ [paroi])))
  /\ (Paroi.type_paroi paroi <> "MUR" ->
      Paroi.type_paroi paroi <> "PLANCHER" ->
      Paroi.type_paroi paroi <> "PLAFOND" ->
      Piece.ajouter_paroi piece paroi = Retourne piece).
Proof.
  unfold Piece.ajouter_paroi, Piece.ranger.
  repeat split.
  - intros ->. reflexivity.
  - intros ->. reflexivity.
  - intros ->. reflexivity.
  - intros H1 H2 H3.
    apply String.eqb_neq in H1, H2, H3. now rewrite H1, H2, H3.
Qed.

(** An element of category "TOITURE" is accepted without an error and lands
    in no collection. *)
Lemma ajouter_paroi_categorie_inconnue :
  exists (piece : Piece.t) paroi,
    Piece.init "p-1" "Salon" 5 4 2.5 = Retourne piece
    /\ Exemples.toiture = Retourne paroi
    /\ Paroi.type_paroi paroi = "TOITURE"
    /\ Piece.ajouter_paroi piece paroi = Retourne piece
    /\ Piece.ajouter_paroi piece paroi <> Leve "UnknownCategory".
Proof.
  do 2 eexists.
  split; [reflexivity|]. split; [reflexivity|].
  split; [reflexivity|]. split; [reflexivity|discriminate].
Qed.

Lemma ajouter_paroi_aiguillage_witness :
  exists (piece : Piece.t) mur toit,
    Piece.init "p-1" "Salon" 5 4 2.5 = Retourne piece
    /\ Exemples.mur_nord Spec.Outdoor = Retourne mur
    /\ Exemples.toiture = Retourne toit
    /\ Piece.ajouter_paroi piece mur
       = Retourne (Piece.avec_collections piece [mur] [] [])
    /\ Piece.ajouter_paroi piece toit = Retourne piece.
Proof.
  do 3 eexists.
  split; [reflexivity|]. split; [reflexivity|]. split; [reflexivity|].
  split.
  - match goal with
    | |- Piece.ajouter_paroi ?p ?e = _ =>
        destruct (ajouter_paroi_aiguillage p e) as (Hmur & _)
    end.
    apply Hmur. reflexivity.
  - match goal with
    | |- Piece.ajouter_paroi ?p ?e = _ =>
        destruct (ajouter_paroi_aiguillage p e) as (_ & _ & _ & Hautre)
    end.
    apply Hautre; vm_compute; discriminate.
Defined.

(** ** C6: the transmittance against the insulation year *)

Lemma u_base_pos (materiau : string) : 0 < Paroi.u_base materiau.
Proof.
  unfold Paroi.u_base.
  destruct (contient "Béton" materiau); [reflexivity|].
  destruct (contient "Pierre" materiau); [reflexivity|].
  destruct (contient "Brique" materiau); reflexivity.
Qed.

Lemma facteur_iso_decroit (y1 y2 : Z) :
  (y1 <= y2)%Z -> Paroi.facteur_iso y2 <= Paroi.facteur_iso y1.
Proof.
  intros Hy. unfold Paroi.facteur_iso.
  destruct (Z.gtb_spec y1 1980), (Z.gtb_spec y1 2005), (Z.gtb_spec y1 2015),
           (Z.gtb_spec y2 1980), (Z.gtb_spec y2 2005), (Z.gtb_spec y2 2015);
    try lia; cbv zeta; apply Qle_bool_iff; reflexivity.
Qed.

(** C6. With the material and every other constructor input fixed, the
    transmittance [U y] of the element constructed with insulation year [y]
    does not increase with [y]: U(y2) <= U(y1) whenever y1 <= y2; in
    particular U(2020) <= U(2010) <= U(1990) <= U(1970). *)
Theorem u_value_decroit_avec_annee
    (uid nom type_paroi : string) (longueur hauteur_largeur : Q)
    (orientation contact materiau : string) :
  exists U : Z -> Q,
    (forall y,
       exists e,
         Paroi.init uid nom type_paroi longueur hauteur_largeur orientation
                    contact y materiau = Retourne e
         /\ Paroi.u_value e = U y)
    /\ (forall y1 y2, (y1 <= y2)%Z -> U y2 <= U y1)
    /\ U 2020%Z <= U 2010%Z
    /\ U 2010%Z <= U 1990%Z
    /\ U 1990%Z <= U 1970%Z.
Proof.
  exists (fun y => Paroi.u_base materiau * Paroi.facteur_iso y).
  assert (Hmono : forall y1 y2, (y1 <= y2)%Z ->
            Paroi.u_base materiau * Paroi.facteur_iso y2
            <= Paroi.u_base materiau * Paroi.facteur_iso y1).
  { intros y1 y2 Hy. apply Qmult_le_l; [apply u_base_pos|].
    apply facteur_iso_decroit, Hy. }
  split; [|split; [exact Hmono|]].
  - intros y. eexists. split; reflexivity.
  - repeat split; apply Hmono; lia.
Qed.

Lemma u_value_decroit_avec_annee_witness :
  exists e1 e2,
    Paroi.init "m-1" "Mur Nord" "MUR" 5 2.5 "Nord" "Extérieur" 2010 "Brique"
    = Retourne e1
    /\ Paroi.init "m-1" "Mur Nord" "MUR" 5 2.5 "Nord" "Extérieur" 2020
                  "Brique" = Retourne e2
    /\ (2010 <= 2020)%Z
    /\ Paroi.u_value e2 <= Paroi.u_value e1.
Proof.
  destruct (u_value_decroit_avec_annee "m-1" "Mur Nord" "MUR" 5 2.5 "Nord"
              "Extérieur" "Brique") as (U & HU & Hmono & _).
  destruct (HU 2010%Z) as (e1 & He1 & HU1).
  destruct (HU 2020%Z) as (e2 & He2 & HU2).
  exists e1, e2.
  split; [exact He1|]. split; [exact He2|].
  assert (Hy : (2010 <= 2020)%Z) by lia.
  split; [exact Hy|].
  rewrite HU1, HU2. apply Hmono, Hy.
Defined.

(** ** C7: the total and the itemized rows *)

Lemma deperditions_parois_b64 (piece_nom type_ : string)
    (parois : list B64.Paroi.t) (etat : float * list B64.ligne) :
  fst (B64.Projet.deperditions_parois piece_nom type_ etat parois)
  = fold_left PrimFloat.add (map B64.Paroi.calcul_deperditions parois)
              (fst etat)
  /\ map B64.Deperdition
         (snd (B64.Projet.deperditions_parois piece_nom type_ etat parois))
     = map B64.Deperdition (snd etat)
       ++ map B64.Paroi.calcul_deperditions parois.
Proof.
  unfold B64.Projet.deperditions_parois.
  revert etat; induction parois as [|e parois IH]; intros [total details].
  - simpl. split; [reflexivity|now rewrite app_nil_r].
  - cbn [fold_left map].
    match goal with
    | |- context [fold_left ?f parois ?etat'] =>
        destruct (IH etat') as [Ht Hd]
    end.
    rewrite Ht, Hd; cbn [fst snd]. split; [reflexivity|].
    rewrite map_app; cbn [map B64.Deperdition]. now rewrite <- app_assoc.
Qed.

Lemma deperditions_pieces_b64 (ps : list B64.Piece.t)
    (etat : float * list B64.ligne) :
  fst (fold_left B64.Projet.deperditions_piece ps etat)
  = fold_left PrimFloat.add
      (map B64.Paroi.calcul_deperditions
           (flat_map (fun r => B64.Piece.murs r ++ B64.Piece.planchers r
                               ++ B64.Piece.plafonds r) ps))
      (fst etat)
  /\ map B64.Deperdition (snd (fold_left B64.Projet.deperditions_piece ps etat))
     = map B64.Deperdition (snd etat)
       ++ map B64.Paroi.calcul_deperditions
              (flat_map (fun r => B64.Piece.murs r ++ B64.Piece.planchers r
                                  ++ B64.Piece.plafonds r) ps).
Proof.
  revert etat; induction ps as [|r ps IH]; intros etat.
  - simpl. split; [reflexivity|now rewrite app_nil_r].
  - cbn [fold_left flat_map].
    destruct (IH (B64.Projet.deperditions_piece etat r)) as [Ht Hd].
    rewrite Ht, Hd. clear Ht Hd.
    unfold B64.Projet.deperditions_piece.
    destruct (deperditions_parois_b64 (B64.Piece.nom r) "Mur+Baies"
                (B64.Piece.murs r) etat) as [Ht1 Hd1].
    set (etat1 := B64.Projet.deperditions_parois (B64.Piece.nom r)
                    "Mur+Baies" etat (B64.Piece.murs r)) in *.
    destruct (deperditions_parois_b64 (B64.Piece.nom r) "Plancher"
                (B64.Piece.planchers r) etat1) as [Ht2 Hd2].
    set (etat2 := B64.Projet.deperditions_parois (B64.Piece.nom r)
                    "Plancher" etat1 (B64.Piece.planchers r)) in *.
    destruct (deperditions_parois_b64 (B64.Piece.nom r) "Plafond"
                (B64.Piece.plafonds r) etat2) as [Ht3 Hd3].
    rewrite Ht3, Ht2, Ht1, Hd3, Hd2, Hd1.
    rewrite !map_app, !fold_left_app, <- !app_assoc.
    split; reflexivity.
Qed.

(** C7. For every project, the total returned by
    [calcul_global_deperditions] is the sum of the values of the rows
    returned with it, added in binary64 from 0.0 in the order of the rows,
    each addition rounding; these rows are one per element, followed by the
    one "Ponts Thermiques" row, whose value is the thermal-bridge estimate.
    The total is not always the exact sum of the row values. *)
Theorem total_somme_des_lignes (p : B64.Projet.t) :
  fst (B64.Projet.calcul_global_deperditions p)
  = B64.somme
      (map B64.Deperdition (snd (B64.Projet.calcul_global_deperditions p)))
  /\ exists lignes,
       snd (B64.Projet.calcul_global_deperditions p)
       = lignes ++ [ {| B64.Element := "Global";
                        B64.Type_ := "Ponts Thermiques";
                        B64.Deperdition :=
                          B64.Projet.calcul_ponts_thermiques_auto p |} ]
       /\ length lignes = B64.Projet.nombre_elements p.
Proof.
  unfold B64.Projet.calcul_global_deperditions.
  destruct (deperditions_pieces_b64 (B64.Projet.pieces p) (0%float, []))
    as [Ht Hd].
  destruct (fold_left B64.Projet.deperditions_piece (B64.Projet.pieces p)
                      (0%float, [])) as [total details].
  cbn [fst snd] in *. split.
  - unfold B64.somme. rewrite map_app, fold_left_app, Hd, Ht. reflexivity.
  - exists details. split; [reflexivity|].
    unfold B64.Projet.nombre_elements.
    rewrite <- (length_map B64.Deperdition details), Hd. simpl.
    now rewrite length_map.
Qed.

(** On a room with three floors whose losses are 2.5e16, 1 and -2.5e16 W/K
    the rows sum exactly to 1 while the total returned is 0: the second
    addition is absorbed. *)
Lemma total_somme_exacte_absorbee :
  exists p,
    B64.Exemples.projet_trois_sols = Retourne p
    /\ map B64.Deperdition (snd (B64.Projet.calcul_global_deperditions p))
       = [2.5e16; 1; -2.5e16; 0]%float
    /\ fst (B64.Projet.calcul_global_deperditions p) = 0%float
    /\ exists total somme_des_lignes,
         B64.valeur_exacte (fst (B64.Projet.calcul_global_deperditions p))
         = Some total
         /\ B64.somme_exacte
              (map B64.Deperdition
                   (snd (B64.Projet.calcul_global_deperditions p)))
            = Some somme_des_lignes
         /\ total == 0
         /\ somme_des_lignes == 1
         /\ ~ total == somme_des_lignes.
Proof.
  eexists. split; [reflexivity|].
  split; [vm_compute; reflexivity|].
  split; [vm_compute; reflexivity|].
  do 2 eexists.
  split; [vm_compute; reflexivity|].
  split; [vm_compute; reflexivity|].
  split; [reflexivity|]. split; [reflexivity|].
  intros H. discriminate H.
Qed.

(** ** C8 and C9: two scenarios *)

(** C8. For a project whose only wall has length 5 and outdoor contact and
    hosts one glazing unit of width 1.0 and height 1.2, the thermal-bridge
    estimate is 2 x (1.0 + 1.2) x 0.1 + 5 x 0.35 + 5 x 0.25 = 3.44 W/K. *)
Theorem ponts_thermiques_un_mur_une_fenetre
    (p : Projet.t) (mur : Paroi.t) (fen : Menuiserie.t) :
  Spec.walls p = [mur] ->
  Paroi.longueur mur == 5 ->
  Paroi.contact mur = Spec.Outdoor ->
  Paroi.menuiseries mur = [fen] ->
  Menuiserie.largeur fen == 1.0 ->
  Menuiserie.hauteur fen == 1.2 ->
  Projet.calcul_ponts_thermiques_auto p
  == 2 * (1.0 + 1.2) * 0.1 + 5 * 0.35 + 5 * 0.25
  /\ Projet.calcul_ponts_thermiques_auto p == 3.44.
Proof.
  intros Hwalls Hlen Hcontact Hfens Hw Hh.
  assert (H : Projet.calcul_ponts_thermiques_auto p
              == 2 * (1.0 + 1.2) * 0.1 + 5 * 0.35 + 5 * 0.25).
  { rewrite ponts_thermiques_allWindows.
    unfold Spec.estimateThermalBridges_allWindows.
    rewrite Hwalls. cbn [List.filter]. unfold Spec.lossBearing.
    rewrite Hcontact, String.eqb_refl. cbn [orb map Spec.Sigma].
    unfold Spec.windowPerimeterLoss. rewrite Hfens.
    cbn [map Spec.Sigma]. rewrite Hlen, Hw, Hh. ring. }
  split; [exact H|]. rewrite H. reflexivity.
Qed.

Lemma ponts_thermiques_un_mur_une_fenetre_witness :
  exists p,
    Exemples.projet_un_mur Spec.Outdoor 1.0 1.2 = Retourne p
    /\ Projet.calcul_ponts_thermiques_auto p == 3.44.
Proof.
  eexists. split; [reflexivity|].
  match goal with
  | |- Projet.calcul_ponts_thermiques_auto ?p == _ =>
      refine (proj2 (ponts_thermiques_un_mur_une_fenetre p _ _ _ _ _ _ _ _))
  end.
  - reflexivity.
  - reflexivity.
  - reflexivity.
  - reflexivity.
  - reflexivity.
  - reflexivity.
Defined.

(** C9. For a freshly created project, which holds no room,
    [calcul_global_deperditions] returns a total of 0 and a report of
    exactly one row, the "Ponts Thermiques" row, of value 0. *)
Theorem projet_vide_deperditions :
  exists (p : Projet.t) total ponts,
    Projet.init = Retourne p
    /\ Projet.pieces p = []
    /\ Projet.calcul_global_deperditions p
       = (total, [ {| Element := "Global";
                      Type_ := "Ponts Thermiques";
                      Deperdition := ponts |} ])
    /\ total == 0.0
    /\ ponts == 0.0.
Proof.
  do 3 eexists.
  split; [reflexivity|]. split; [reflexivity|].
  split; [reflexivity|]. split; reflexivity.
Qed.

(** ** C10: what adding a window changes *)

Lemma omap_lookup_agree (h h' : gmap Memoire.adr Paroi.t)
    (l : list Memoire.adr) :
  (forall a, a ∈ l -> h' !! a = h !! a) ->
  omap (fun a => h' !! a) l = omap (fun a => h !! a) l.
Proof.
  induction l as [|a l IH]; intros H; [reflexivity|].
  cbn. rewrite (H a) by constructor.
  rewrite IH; [reflexivity|].
  intros a' Ha'. apply H. now constructor.
Qed.

(** C10. A call of [ajouter_menuiserie] on the element at an address
    returns, and changes the store at that address only: the element there
    keeps its identity, name, category, dimensions, gross area,
    orientation, contact, transmittance and coefficient [b], and its
    glazing sequence is the former one followed by the new unit.  Every
    other element of the store is as it was, no element appears or
    disappears, the project and its rooms (their attributes and the
    references they hold) are as they were, and a room that does not refer
    to the element reads the same as before. *)
Theorem ajouter_menuiserie_cadre (w : Memoire.monde) (a : Memoire.adr)
    (men : Menuiserie.t) (self : Paroi.t) :
  Memoire.tas w !! a = Some self ->
  exists w' self',
    Memoire.ajouter_menuiserie a men w = Some (Retourne w')
    /\ Memoire.tas w' !! a = Some self'
    /\ Paroi.menuiseries self' = Paroi.menuiseries self ++ [men]
    /\ Paroi.id self' = Paroi.id self
    /\ Paroi.nom self' = Paroi.nom self
    /\ Paroi.type_paroi self' = Paroi.type_paroi self
    /\ Paroi.longueur self' = Paroi.longueur self
    /\ Paroi.hauteur_largeur self' = Paroi.hauteur_largeur self
    /\ Paroi.surface_brute self' = Paroi.surface_brute self
    /\ Paroi.orientation self' = Paroi.orientation self
    /\ Paroi.contact self' = Paroi.contact self
    /\ Paroi.u_value self' = Paroi.u_value self
    /\ Paroi.b_coef self' = Paroi.b_coef self
    /\ (forall a', a' <> a -> Memoire.tas w' !! a' = Memoire.tas w !! a')
    /\ dom (Memoire.tas w') = dom (Memoire.tas w)
    /\ Memoire.projet w' = Memoire.projet w
    /\ (forall piece : Piece.t_ Memoire.adr,
          a ∉ Piece.murs piece ->
          a ∉ Piece.planchers piece ->
          a ∉ Piece.plafonds piece ->
          Memoire.charger_piece (Memoire.tas w') piece
          = Memoire.charger_piece (Memoire.tas w) piece).
Proof.
  intros Hself.
  exists {| Memoire.tas :=
              <[a := Paroi.avec_menuiseries
                       self (Paroi.menuiseries self ++ [men])]>
                (Memoire.tas w);
            Memoire.projet := Memoire.projet w |}.
  exists (Paroi.avec_menuiseries self (Paroi.menuiseries self ++ [men])).
  assert (Hautres : forall a', a' <> a ->
            <[a := Paroi.avec_menuiseries
                     self (Paroi.menuiseries self ++ [men])]>
              (Memoire.tas w) !! a' = Memoire.tas w !! a').
  { intros a' Hne. now apply lookup_insert_ne. }
  split.
  { unfold Memoire.ajouter_menuiserie. rewrite Hself. reflexivity. }
  split; [apply lookup_insert_eq|].
  do 11 (split; [reflexivity|]).
  split; [exact Hautres|].
  split.
  { cbn. rewrite dom_insert_L.
    apply subseteq_union_1_L, singleton_subseteq_l, elem_of_dom. eauto. }
  split; [reflexivity|].
  intros piece Hm Hs Hp. unfold Memoire.charger_piece; cbn.
  f_equal; apply omap_lookup_agree; intros a' Ha'; apply Hautres;
    intros Heq; subst a'; contradiction.
Qed.

(** On the world where the wall at address 1 sits in both rooms: after the
    call both rooms read the new window on it, and the wall at address 2 is
    as before. *)
Lemma ajouter_menuiserie_cadre_witness :
  exists w,
    Exemples.monde_partage = Some w
    /\ exists fen,
         Menuiserie.init "f-1" "Fenetre 1" 1.0 1.2 "Simple vitrage"
         = Retourne fen
         /\ exists mur,
              Memoire.tas w !! 1%positive = Some mur
              /\ exists w',
                   Memoire.ajouter_menuiserie 1%positive fen w
                   = Some (Retourne w')
                   /\ Memoire.tas w' !! 2%positive
                      = Memoire.tas w !! 2%positive
                   /\ Memoire.projet w' = Memoire.projet w
                   /\ map (fun r => map Paroi.menuiseries (Piece.murs r))
                          (Projet.pieces (Memoire.instantane w'))
                      = [ [[fen]]; [[fen]; []] ].
Proof.
  eexists. split; [reflexivity|].
  eexists. split; [reflexivity|].
  eexists. split; [reflexivity|].
  match goal with
  | |- exists w', Memoire.ajouter_menuiserie ?a ?fen ?w = _ /\ _ =>
      destruct (ajouter_menuiserie_cadre w a fen _ eq_refl)
        as (w' & self' & Hcall & Hself' & _ & _ & _ & _ & _ & _ & _ & _ & _
            & _ & _ & Hautres & _ & Hprojet & _)
  end.
  exists w'.
  split; [exact Hcall|].
  split; [apply Hautres; discriminate|].
  split; [exact Hprojet|].
  injection Hcall as <-. vm_compute. reflexivity.
Defined.

(** * Further properties of the code *)

(** ** Material keywords, insulation tiers, glazing table *)

Lemma prefix_app (s1 s2 : string) :
  String.prefix s1 s2 = true <-> exists apres, s2 = s1 +:+ apres.
Proof.
  revert s2; induction s1 as [|a s1 IH]; intros s2.
  - destruct s2; simpl; (split; [intros _; eexists; reflexivity|reflexivity]).
  - destruct s2 as [|b s2]; simpl.
    + split; [discriminate|]. intros [apres H]. discriminate.
    + destruct (Ascii.ascii_dec a b) as [->|Hne].
      * rewrite IH. split; intros [apres H]; exists apres.
        -- now rewrite H.
        -- now injection H.
      * split; [discriminate|]. intros [apres H].
        injection H as H1 H2. congruence.
Qed.

Lemma contient_mentionne (kw s : string) :
  contient kw s = true <-> Enonces.mentionne kw s.
Proof.
  unfold Enonces.mentionne.
  induction s as [|c s IH]; cbn [contient].
  - destruct (String.prefix kw "") eqn:E.
    + split; [intros _|reflexivity].
      apply prefix_app in E as [apres E]. now exists "", apres.
    + split; [discriminate|]. intros (avant & apres & H).
      destruct avant; [|discriminate]. simpl in H.
      assert (String.prefix kw "" = true)
        by (apply prefix_app; now exists apres).
      congruence.
  - destruct (String.prefix kw (String c s)) eqn:E.
    + split; [intros _|reflexivity].
      apply prefix_app in E as [apres E]. now exists "", apres.
    + rewrite IH. split.
      * intros (avant & apres & H). exists (String c avant), apres.
        simpl. now rewrite H.
      * intros (avant & apres & H). destruct avant as [|c' avant].
        -- simpl in H.
           assert (String.prefix kw (String c s) = true)
             by (apply prefix_app; now exists apres).
           congruence.
        -- simpl in H. injection H as _ H. now exists avant, apres.
Qed.

(** X1. The base transmittance follows the first keyword found in the
    material, in the order "Béton", "Pierre", "Brique": 2.3 when "Béton"
    occurs in it, whatever else does; 2.8 when "Pierre" occurs and "Béton"
    does not; 1.5 when "Brique" occurs and neither of the two others does;
    2.5 when none occurs. *)
Theorem u_base_premier_mot_cle (materiau : string) :
  (Enonces.mentionne "Béton" materiau -> Paroi.u_base materiau = 2.3)
  /\ (~ Enonces.mentionne "Béton" materiau ->
      Enonces.mentionne "Pierre" materiau -> Paroi.u_base materiau = 2.8)
  /\ (~ Enonces.mentionne "Béton" materiau ->
      ~ Enonces.mentionne "Pierre" materiau ->
      Enonces.mentionne "Brique" materiau -> Paroi.u_base materiau = 1.5)
  /\ (~ Enonces.mentionne "Béton" materiau ->
      ~ Enonces.mentionne "Pierre" materiau ->
      ~ Enonces.mentionne "Brique" materiau -> Paroi.u_base materiau = 2.5).
Proof.
  unfold Paroi.u_base.
  rewrite <- !contient_mentionne.
  destruct (contient "Béton" materiau), (contient "Pierre" materiau),
           (contient "Brique" materiau);
    repeat split; intros; congruence.
Qed.

Lemma u_base_premier_mot_cle_witness :
  Paroi.u_base "Béton Banché" = 2.3
  /\ Paroi.u_base "Brique sur soubassement en Pierre" = 2.8
  /\ Paroi.u_base "Parpaing Creux" = 2.5.
Proof.
  split; [|split].
  - apply (u_base_premier_mot_cle "Béton Banché").
    exists "", " Banché". reflexivity.
  - apply (u_base_premier_mot_cle "Brique sur soubassement en Pierre").
    + intros H. apply contient_mentionne in H. discriminate.
    + exists "Brique sur soubassement en ", "". reflexivity.
  - apply (u_base_premier_mot_cle "Parpaing Creux");
      intros H; apply contient_mentionne in H; discriminate.
Defined.

(** X2. The three successive tests on the insulation year amount to
    tiers with strict thresholds: 0.15 above 2015, 0.25 from 2006 to 2015,
    0.5 from 1981 to 2005, and 1.0 up to 1980, year 0 and negative years
    included. *)
Theorem facteur_iso_paliers (annee_iso : Z) :
  Paroi.facteur_iso annee_iso
  = if (2015 <? annee_iso)%Z then 0.15
    else if (2005 <? annee_iso)%Z then 0.25
    else if (1980 <? annee_iso)%Z then 0.5
    else 1.0.
Proof.
  unfold Paroi.facteur_iso. rewrite !Z.gtb_ltb.
  destruct (Z.ltb_spec 2015 annee_iso), (Z.ltb_spec 2005 annee_iso),
           (Z.ltb_spec 1980 annee_iso); try reflexivity; lia.
Qed.

(** X3. Whatever the material and the year, the transmittance of a
    constructed element, as the code computes it in binary64, lies between
    0.22 and 2.8 W/m2.K. *)
Theorem u_value_bornes
    (uid nom type_paroi : string) (longueur hauteur_largeur : float)
    (orientation contact : string) (annee_iso : Z) (materiau : string) :
  exists e,
    B64.Paroi.init uid nom type_paroi longueur hauteur_largeur orientation
                   contact annee_iso materiau = Retourne e
    /\ (0.22 <=? B64.Paroi.u_value e)%float = true
    /\ (B64.Paroi.u_value e <=? 2.8)%float = true.
Proof.
  eexists. split; [reflexivity|]. simpl.
  unfold B64.Paroi.u_base, B64.Paroi.facteur_iso.
  destruct (contient "Béton" materiau), (contient "Pierre" materiau),
           (contient "Brique" materiau),
           (annee_iso >? 1980)%Z, (annee_iso >? 2005)%Z,
           (annee_iso >? 2015)%Z;
    cbv zeta; split; vm_compute; reflexivity.
Qed.

(** X4. The transmittance of a glazing unit is read from the table of the
    four known glazing types and is 2.8, the value of old double glazing,
    for every other type; it always lies between 0.8 and 5.8. *)
Theorem vitrage_u_value (uid nom : string) (largeur hauteur : Q)
    (vitrage_type : string) :
  exists m,
    Menuiserie.init uid nom largeur hauteur vitrage_type = Retourne m
    /\ (vitrage_type = "Simple vitrage" -> Menuiserie.u_value m = 5.8)
    /\ (vitrage_type = "Double vitrage ancien" -> Menuiserie.u_value m = 2.8)
    /\ (vitrage_type = "Double vitrage récent (VIR)" ->
        Menuiserie.u_value m = 1.4)
    /\ (vitrage_type = "Triple vitrage" -> Menuiserie.u_value m = 0.8)
    /\ (vitrage_type <> "Simple vitrage" ->
        vitrage_type <> "Double vitrage ancien" ->
        vitrage_type <> "Double vitrage récent (VIR)" ->
        vitrage_type <> "Triple vitrage" ->
        Menuiserie.u_value m = 2.8)
    /\ 0.8 <= Menuiserie.u_value m <= 5.8.
Proof.
  eexists. split; [reflexivity|]. simpl. unfold Menuiserie.table_u.
  destruct (decide (vitrage_type = "Triple vitrage")) as [->|H4].
  { rewrite lookup_insert_eq. simpl.
    repeat split; try reflexivity; try discriminate; try congruence;
      apply Qle_bool_iff; reflexivity. }
  rewrite lookup_insert_ne by congruence.
  destruct (decide (vitrage_type = "Double vitrage récent (VIR)"))
    as [->|H3].
  { rewrite lookup_insert_eq. simpl.
    repeat split; try reflexivity; try discriminate; try congruence;
      apply Qle_bool_iff; reflexivity. }
  rewrite lookup_insert_ne by congruence.
  destruct (decide (vitrage_type = "Double vitrage ancien")) as [->|H2].
  { rewrite lookup_insert_eq. simpl.
    repeat split; try reflexivity; try discriminate; try congruence;
      apply Qle_bool_iff; reflexivity. }
  rewrite lookup_insert_ne by congruence.
  destruct (decide (vitrage_type = "Simple vitrage")) as [->|H1].
  { rewrite lookup_insert_eq. simpl.
    repeat split; try reflexivity; try discriminate; try congruence;
      apply Qle_bool_iff; reflexivity. }
  rewrite lookup_insert_ne by congruence.
  rewrite lookup_empty. simpl.
  repeat split; try reflexivity; try congruence;
    apply Qle_bool_iff; reflexivity.
Qed.

Lemma vitrage_u_value_witness :
  exists m1 m2,
    Menuiserie.init "f-1" "Fenetre 1" 1.0 1.2 "Triple vitrage" = Retourne m1
    /\ Menuiserie.u_value m1 = 0.8
    /\ Menuiserie.init "f-2" "Fenetre 2" 1.0 1.2 "Vitrage inconnu"
       = Retourne m2
    /\ Menuiserie.u_value m2 = 2.8.
Proof.
  destruct (vitrage_u_value "f-1" "Fenetre 1" 1.0 1.2 "Triple vitrage")
    as (m1 & E1 & _ & _ & _ & H1 & _).
  destruct (vitrage_u_value "f-2" "Fenetre 2" 1.0 1.2 "Vitrage inconnu")
    as (m2 & E2 & _ & _ & _ & _ & H2 & _).
  exists m1, m2.
  split; [exact E1|]. split; [apply H1; reflexivity|].
  split; [exact E2|]. apply H2; discriminate.
Defined.

(** ** Heat loss of one element *)

Lemma Sigma_nonneg (l : list Q) : Forall (fun x => 0 <= x) l -> 0 <= Spec.Sigma l.
Proof.
  induction 1 as [|x l Hx _ IH]; simpl; [apply Qle_refl|lra].
Qed.

(** The loss as one product with [b]. *)
Lemma calcul_deperditions_b (e : Paroi.t) :
  Paroi.calcul_deperditions e
  == Paroi.b_coef e
     * (Spec.netOpaqueArea e * Paroi.u_value e
        + Spec.Sigma (map (fun g => Menuiserie.surface g
                                    * Menuiserie.u_value g)
                          (Paroi.menuiseries e))).
Proof.
  unfold Paroi.calcul_deperditions.
  rewrite somme_Sigma, surface_nette_netOpaqueArea.
  rewrite (Sigma_map_scale
             (fun g => Menuiserie.surface g * Menuiserie.u_value g)).
  ring.
Qed.

(** X9. An element whose net opaque area, transmittance and coefficient
    [b] are not negative, and whose glazing units have non-negative area
    and transmittance, has a non-negative loss. *)
Theorem deperditions_non_negatives (e : Paroi.t) :
  0 <= Paroi.get_surface_nette e ->
  0 <= Paroi.u_value e ->
  0 <= Paroi.b_coef e ->
  Forall (fun g => 0 <= Menuiserie.surface g /\ 0 <= Menuiserie.u_value g)
         (Paroi.menuiseries e) ->
  0 <= Paroi.calcul_deperditions e.
Proof.
  intros Hnet Hu Hb Hms.
  rewrite calcul_deperditions_b, <- surface_nette_netOpaqueArea.
  apply Qmult_le_0_compat; [exact Hb|].
  assert (0 <= Paroi.get_surface_nette e * Paroi.u_value e)
    by (apply Qmult_le_0_compat; assumption).
  assert (0 <= Spec.Sigma
                 (map (fun g => Menuiserie.surface g * Menuiserie.u_value g)
                      (Paroi.menuiseries e))).
  { apply Sigma_nonneg, Forall_map.
    eapply Forall_impl; [exact Hms|].
    intros g [Hs Hg]. now apply Qmult_le_0_compat. }
  lra.
Qed.

Lemma deperditions_non_negatives_witness :
  exists e,
    Exemples.mur_vitre Spec.Outdoor 1.0 1.2 = Retourne e
    /\ 0 <= Paroi.calcul_deperditions e.
Proof.
  eexists. split; [reflexivity|].
  apply deperditions_non_negatives.
  - vm_compute; discriminate.
  - vm_compute; discriminate.
  - vm_compute; discriminate.
  - repeat constructor; vm_compute; discriminate.
Defined.

(** ** The whole project *)

Lemma deperditions_parois_exact (piece_nom type_ : string)
    (parois : list Paroi.t) (etat : Q * list ligne) :
  Projet.deperditions_parois piece_nom type_ etat parois
  = (fold_left Qplus (map Paroi.calcul_deperditions parois) (fst etat),
     snd etat ++ map (Enonces.ligne_de piece_nom type_) parois).
Proof.
  unfold Projet.deperditions_parois.
  revert etat; induction parois as [|e parois IH]; intros [total details].
  - simpl. now rewrite app_nil_r.
  - cbn [fold_left map]. rewrite IH. cbn [fst snd].
    now rewrite <- app_assoc.
Qed.

Lemma deperditions_piece_exact (r : Piece.t) (etat : Q * list ligne) :
  Projet.deperditions_piece etat r
  = (fold_left Qplus (map Paroi.calcul_deperditions (Enonces.elements r))
               (fst etat),
     snd etat ++ Enonces.lignes_piece r).
Proof.
  unfold Projet.deperditions_piece, Enonces.elements, Enonces.lignes_piece.
  rewrite !deperditions_parois_exact. cbn [fst snd].
  now rewrite !map_app, !fold_left_app, <- !app_assoc.
Qed.

Lemma deperditions_pieces_exact (ps : list Piece.t) (etat : Q * list ligne) :
  fold_left Projet.deperditions_piece ps etat
  = (fold_left Qplus
               (map Paroi.calcul_deperditions (flat_map Enonces.elements ps))
               (fst etat),
     snd etat ++ flat_map Enonces.lignes_piece ps).
Proof.
  revert etat; induction ps as [|r ps IH]; intros etat.
  - destruct etat. simpl. now rewrite app_nil_r.
  - cbn [fold_left flat_map]. rewrite IH, deperditions_piece_exact.
    cbn [fst snd]. now rewrite map_app, fold_left_app, <- app_assoc.
Qed.

Lemma calcul_global_exact (p : Projet.t) :
  Projet.calcul_global_deperditions p
  = (fold_left Qplus
               (map Paroi.calcul_deperditions (Enonces.tous_les_elements p))
               0.0
     + Projet.calcul_ponts_thermiques_auto p,
     flat_map Enonces.lignes_piece (Projet.pieces p)
     ++ [ {| Element := "Global";
             Type_ := "Ponts Thermiques";
             Deperdition := Projet.calcul_ponts_thermiques_auto p |} ]).
Proof.
  unfold Projet.calcul_global_deperditions.
  rewrite deperditions_pieces_exact. reflexivity.
Qed.


(** X10. The report lists the rooms in order and, within each room, its
    walls, then its floors, then its ceilings, each in insertion order; the
    row of an element is labelled "<room> - <element>", typed "Mur+Baies",
    "Plancher" or "Plafond" after the collection it sits in, and carries
    the element's loss; the "Ponts Thermiques" row comes last. *)
Theorem rapport_lignes (p : Projet.t) :
  snd (Projet.calcul_global_deperditions p)
  = flat_map
      (fun r =>
         map (fun e => {| Element := Piece.nom r +:+ " - " +:+ Paroi.nom e;
                          Type_ := "Mur+Baies";
                          Deperdition := Paroi.calcul_deperditions e |})
             (Piece.murs r)
         ++ map (fun e => {| Element := Piece.nom r +:+ " - " +:+ Paroi.nom e;
                             Type_ := "Plancher";
                             Deperdition := Paroi.calcul_deperditions e |})
                (Piece.planchers r)
         ++ map (fun e => {| Element := Piece.nom r +:+ " - " +:+ Paroi.nom e;
                             Type_ := "Plafond";
                             Deperdition := Paroi.calcul_deperditions e |})
                (Piece.plafonds r))
      (Projet.pieces p)
    ++ [ {| Element := "Global";
            Type_ := "Ponts Thermiques";
            Deperdition := Projet.calcul_ponts_thermiques_auto p |} ].
Proof. rewrite calcul_global_exact. reflexivity. Qed.


(** X14. Creating a room adds a room without elements at the end of the
    project, and such a room changes nothing in the results: the total, the
    rows and the thermal-bridge estimate are those of the project
    before. *)
Theorem creer_piece_sans_effet (projet : Projet.t) (uid p_nom : string)
    (p_len p_wid p_h : Q) :
  exists projet' (nouvelle : Piece.t),
    Interface.creer_piece projet uid p_nom p_len p_wid p_h = Retourne projet'
    /\ Piece.init uid p_nom p_len p_wid p_h = Retourne nouvelle
    /\ Projet.pieces projet' = Projet.pieces projet ++ [nouvelle]
    /\ Projet.calcul_ponts_thermiques_auto projet'
       = Projet.calcul_ponts_thermiques_auto projet
    /\ Projet.calcul_global_deperditions projet'
       = Projet.calcul_global_deperditions projet.
Proof.
  do 2 eexists. split; [reflexivity|]. split; [reflexivity|].
  split; [reflexivity|].
  assert (Hponts : forall alt zone annee,
            Projet.calcul_ponts_thermiques_auto
              {| Projet.pieces :=
                   Projet.pieces projet
                   ++ [ Piece.mk uid p_nom p_len p_wid p_h (p_len * p_wid)
                                 (p_len * p_wid * p_h) [] [] [] ];
                 Projet.altitude := alt;
                 Projet.zone_climatique := zone;
                 Projet.annee_construction := annee |}
            = Projet.calcul_ponts_thermiques_auto projet).
  { intros. unfold Projet.calcul_ponts_thermiques_auto. cbn [Projet.pieces].
    rewrite fold_left_app. cbn [fold_left].
    unfold Projet.pt_piece at 1. reflexivity. }
  split; [apply Hponts|].
  unfold Projet.calcul_global_deperditions.
  rewrite Hponts. cbn [Projet.pieces].
  rewrite fold_left_app. cbn [fold_left].
  unfold Projet.deperditions_piece at 1, Projet.deperditions_parois.
  reflexivity.
Qed.

(** X15. Floors and ceilings play no part in the thermal-bridge estimate:
    two projects with the same walls have the same estimate. *)
Theorem ponts_thermiques_murs_seuls (p p' : Projet.t) :
  flat_map Piece.murs (Projet.pieces p)
  = flat_map Piece.murs (Projet.pieces p') ->
  Projet.calcul_ponts_thermiques_auto p
  == Projet.calcul_ponts_thermiques_auto p'.
Proof.
  intros H. rewrite !ponts_thermiques_allWindows.
  unfold Spec.estimateThermalBridges_allWindows, Spec.walls.
  rewrite H. reflexivity.
Qed.

(** X16. When no wall has a negative length and no glazing unit of a wall
    has a negative half-perimeter, the thermal-bridge estimate is not
    negative. *)
Theorem ponts_thermiques_non_negatifs (p : Projet.t) :
  Forall (fun w =>
            0 <= Paroi.longueur w
            /\ Forall (fun g => 0 <= Menuiserie.largeur g
                                     + Menuiserie.hauteur g)
                      (Paroi.menuiseries w))
         (flat_map Piece.murs (Projet.pieces p)) ->
  0 <= Projet.calcul_ponts_thermiques_auto p.
Proof.
  intros H. rewrite ponts_thermiques_allWindows.
  unfold Spec.estimateThermalBridges_allWindows, Spec.walls.
  set (ws := flat_map Piece.murs (Projet.pieces p)) in *.
  assert (H1 : 0 <= Spec.Sigma (map Spec.windowPerimeterLoss ws)).
  { apply Sigma_nonneg, Forall_map.
    eapply Forall_impl; [exact H|]. intros w [_ Hw]. cbv beta.
    unfold Spec.windowPerimeterLoss.
    apply Sigma_nonneg, Forall_map.
    eapply Forall_impl; [exact Hw|]. intros g Hg. cbv beta in Hg |- *. lra. }
  assert (H2 : 0 <= Spec.Sigma
                      (map Paroi.longueur (List.filter Spec.lossBearing ws))).
  { apply Sigma_nonneg, Forall_map.
    clear H1. induction H as [|w ws' [Hw _] _ IH]; cbn; [constructor|].
    destruct (Spec.lossBearing w); [constructor; [exact Hw|exact IH]|exact IH]. }
  lra.
Qed.

Lemma ponts_thermiques_murs_seuls_witness :
  exists p p',
    Exemples.projet_un_mur Spec.Outdoor 1.0 1.2 = Retourne p
    /\ Exemples.projet_un_mur_sol_plafond Spec.Outdoor 1.0 1.2 = Retourne p'
    /\ flat_map Piece.murs (Projet.pieces p)
       = flat_map Piece.murs (Projet.pieces p')
    /\ Projet.calcul_ponts_thermiques_auto p
       == Projet.calcul_ponts_thermiques_auto p'.
Proof.
  do 2 eexists. split; [reflexivity|]. split; [reflexivity|].
  split; [reflexivity|].
  apply ponts_thermiques_murs_seuls. reflexivity.
Defined.

Lemma ponts_thermiques_non_negatifs_witness :
  exists p,
    Exemples.projet_un_mur Spec.Outdoor 1.0 1.2 = Retourne p
    /\ 0 <= Projet.calcul_ponts_thermiques_auto p.
Proof.
  eexists. split; [reflexivity|].
  apply ponts_thermiques_non_negatifs.
  repeat constructor; vm_compute; discriminate.
Defined.

(** ** The handlers of a room *)

Lemma lossBearing_options (contact : string) (e : Paroi.t) :
  In contact Interface.options_contact ->
  contact <> "Intérieur (Chauffé)" ->
  Paroi.contact e = contact ->
  Spec.lossBearing e = true.
Proof.
  intros Hin Hne Hc. unfold Spec.lossBearing. rewrite Hc.
  destruct Hin as [H|[H|[H|[]]]]; subst contact;
    [reflexivity|reflexivity|congruence].
Qed.

(** X17. The wall form refuses a wall in contact with the heated interior:
    it shows a warning and leaves the room as it was.  With any other
    contact it appends to the walls of the room, and to nothing else, a
    new element of category "MUR" built from the entries.  With a contact
    taken from the options of the select box, a room all of whose walls are
    in contact with the outside or an unheated space stays so. *)
Theorem formulaire_mur_garde (piece : Piece.t) (uid : string)
    (s : Interface.saisie_mur) :
  (Interface.m_contact s = "Intérieur (Chauffé)" ->
   Interface.formulaire_mur piece uid s
   = Retourne (Some Interface.message_mur_interieur, piece))
  /\ (Interface.m_contact s <> "Intérieur (Chauffé)" ->
      exists mur,
        Paroi.init uid (Interface.m_nom s) "MUR" (Interface.m_long s)
                   (Interface.m_haut s) (Interface.m_orient s)
                   (Interface.m_contact s) (Interface.iso_annee s)
                   (Interface.mat_choix s) = Retourne mur
        /\ Interface.formulaire_mur piece uid s
           = Retourne (None,
                       Piece.avec_collections
                         piece (Piece.murs piece ++ [mur])
                         (Piece.planchers piece) (Piece.plafonds piece)))
  /\ (In (Interface.m_contact s) Interface.options_contact ->
      Enonces.murs_deperditifs piece ->
      exists msg piece',
        Interface.formulaire_mur piece uid s = Retourne (msg, piece')
        /\ Enonces.murs_deperditifs piece').
Proof.
  unfold Interface.formulaire_mur.
  destruct (String.eqb_spec (Interface.m_contact s) "Intérieur (Chauffé)")
    as [Heq|Hne].
  - split; [reflexivity|]. split; [congruence|].
    intros _ Hinv. do 2 eexists. split; [reflexivity|exact Hinv].
  - split; [congruence|]. split.
    + intros _. eexists. split; reflexivity.
    + intros Hin Hinv. do 2 eexists. split; [reflexivity|].
      unfold Enonces.murs_deperditifs. cbn.
      apply Forall_app. split; [exact Hinv|].
      constructor; [|constructor].
      now apply (lossBearing_options (Interface.m_contact s)).
Qed.

Lemma formulaire_mur_garde_witness :
  exists piece : Piece.t,
    Piece.init "p-1" "Salon" 5 4 2.5 = Retourne piece
    /\ Interface.formulaire_mur
         piece "m-1"
         (Interface.mk_saisie_mur "Cloison" 5 2.5 "Nord"
                                  "Intérieur (Chauffé)" "Brique" 0)
       = Retourne (Some Interface.message_mur_interieur, piece)
    /\ exists msg piece',
         Interface.formulaire_mur
           piece "m-2"
           (Interface.mk_saisie_mur "Mur Nord" 5 2.5 "Nord"
                                    "Local Non Chauffé" "Pierre" 1990)
         = Retourne (msg, piece')
         /\ Enonces.murs_deperditifs piece'.
Proof.
  eexists. split; [reflexivity|]. split.
  - match goal with
    | |- Interface.formulaire_mur ?p ?u ?s = _ =>
        destruct (formulaire_mur_garde p u s) as (Hrefus & _ & _)
    end.
    apply Hrefus. reflexivity.
  - match goal with
    | |- exists msg piece', Interface.formulaire_mur ?p ?u ?s = _ /\ _ =>
        destruct (formulaire_mur_garde p u s) as (_ & _ & Hinv)
    end.
    apply Hinv.
    + right; left; reflexivity.
    + constructor.
Defined.

(** X18. "Ajouter Plancher Bas standard" appends to the floors of the
    room, and to nothing else, an element of category "PLANCHER" without
    glazing, of the room's length by the room's breadth, of transmittance
    1.15 and coefficient 0.95; "Ajouter Plafond sous combles" appends to
    its ceilings, and to nothing else, an element of category "PLAFOND"
    without glazing, of the same dimensions, of transmittance 1.25 and
    coefficient 1. *)
Theorem boutons_plancher_plafond (piece : B64.Piece.t) (uid : string) :
  (exists sol,
     B64.Interface.bouton_plancher piece uid
     = Retourne (B64.Piece.avec_collections
                   piece (B64.Piece.murs piece)
                   (B64.Piece.planchers piece ++ [sol])
                   (B64.Piece.plafonds piece))
     /\ B64.Paroi.type_paroi sol = "PLANCHER"
     /\ B64.Paroi.menuiseries sol = []
     /\ B64.Paroi.surface_brute sol
        = (B64.Piece.longueur piece * B64.Piece.largeur piece)%float
     /\ B64.Paroi.u_value sol = 1.15%float
     /\ B64.Paroi.b_coef sol = 0.95%float)
  /\ (exists plaf,
        B64.Interface.bouton_plafond piece uid
        = Retourne (B64.Piece.avec_collections
                      piece (B64.Piece.murs piece)
                      (B64.Piece.planchers piece)
                      (B64.Piece.plafonds piece ++ [plaf]))
        /\ B64.Paroi.type_paroi plaf = "PLAFOND"
        /\ B64.Paroi.menuiseries plaf = []
        /\ B64.Paroi.surface_brute plaf
           = (B64.Piece.longueur piece * B64.Piece.largeur piece)%float
        /\ B64.Paroi.u_value plaf = 1.25%float
        /\ B64.Paroi.b_coef plaf = 1%float).
Proof.
  split; eexists; repeat split; vm_compute; reflexivity.
Qed.

(** X19. A room built by its constructor is sorted by category, its walls
    being of category "MUR", its floors "PLANCHER" and its ceilings
    "PLAFOND", and [ajouter_paroi] keeps a room sorted, whatever the
    category of the element it is given. *)
Theorem ajouter_paroi_bien_range (piece : Piece.t) (paroi : Paroi.t) :
  (forall uid nom longueur largeur hauteur,
     exists r : Piece.t,
       Piece.init uid nom longueur largeur hauteur = Retourne r
       /\ Enonces.bien_range r)
  /\ (Enonces.bien_range piece ->
      exists piece',
        Piece.ajouter_paroi piece paroi = Retourne piece'
        /\ Enonces.bien_range piece').
Proof.
  split.
  - intros. eexists. split; [reflexivity|]. repeat split; constructor.
  - intros (Hm & Hs & Hp).
    unfold Piece.ajouter_paroi, Piece.ranger.
    destruct (String.eqb_spec (Paroi.type_paroi paroi) "MUR") as [E1|_];
      [|destruct (String.eqb_spec (Paroi.type_paroi paroi) "PLANCHER")
          as [E2|_];
        [|destruct (String.eqb_spec (Paroi.type_paroi paroi) "PLAFOND")
            as [E3|_]]];
      eexists; (split; [reflexivity|]); repeat split; cbn;
      try assumption; apply Forall_app; split; try assumption;
      repeat constructor; assumption.
Qed.

Lemma ajouter_paroi_bien_range_witness :
  exists piece : Piece.t,
    Piece.init "p-1" "Salon" 5 4 2.5 = Retourne piece
    /\ exists toit,
         Exemples.toiture = Retourne toit
         /\ Enonces.bien_range piece
         /\ exists piece',
              Piece.ajouter_paroi piece toit = Retourne piece'
              /\ Enonces.bien_range piece'.
Proof.
  eexists. split; [reflexivity|].
  eexists. split; [reflexivity|].
  match goal with
  | |- Enonces.bien_range ?p /\ _ =>
      assert (Hp : Enonces.bien_range p) by (repeat split; constructor)
  end.
  split; [exact Hp|].
  match goal with
  | |- exists piece', Piece.ajouter_paroi ?p ?e = _ /\ _ =>
      destruct (ajouter_paroi_bien_range p e) as (_ & Hinv)
  end.
  apply Hinv, Hp.
Defined.



(** ** Removing a wall *)

Lemma retirer_absent (x : Memoire.adr) (l : list Memoire.adr) :
  ~ In x l -> Memoire.retirer x l = Leve "ValueError".
Proof.
  induction l as [|y l IH]; intros Hnin; [reflexivity|].
  cbn. destruct (decide (y = x)) as [->|Hne].
  - exfalso. apply Hnin. now left.
  - rewrite IH; [reflexivity|]. intros H. apply Hnin. now right.
Qed.

Lemma retirer_present (x : Memoire.adr) (l : list Memoire.adr) :
  In x l ->
  exists avant apres,
    l = avant ++ x :: apres
    /\ ~ In x avant
    /\ Memoire.retirer x l = Retourne (avant ++ apres).
Proof.
  induction l as [|y l IH]; intros Hin; [destruct Hin|].
  cbn. destruct (decide (y = x)) as [->|Hne].
  - exists [], l. split; [reflexivity|]. split; [intros []|reflexivity].
  - destruct Hin as [Heq|Hin]; [congruence|].
    destruct (IH Hin) as (avant & apres & -> & Hnin & ->).
    exists (y :: avant), apres. split; [reflexivity|]. split.
    + intros [Heq|H]; [congruence|exact (Hnin H)].
    + reflexivity.
Qed.

(** X21. Removing a wall that the room refers to takes its first reference
    out of the walls of the room: the references before it and after it
    stay, in order, later references to the same wall included, and the
    floors and the ceilings are untouched. *)
Theorem supprimer_mur_premiere_reference (piece : Piece.t_ Memoire.adr)
    (a : Memoire.adr) :
  In a (Piece.murs piece) ->
  exists avant apres,
    Piece.murs piece = avant ++ a :: apres
    /\ ~ In a avant
    /\ Memoire.supprimer_mur piece a
       = Retourne (Piece.avec_collections piece (avant ++ apres)
                     (Piece.planchers piece) (Piece.plafonds piece)).
Proof.
  intros Hin. unfold Memoire.supprimer_mur.
  destruct (retirer_present a (Piece.murs piece) Hin)
    as (avant & apres & Hl & Hnin & ->).
  exists avant, apres. split; [exact Hl|]. split; [exact Hnin|reflexivity].
Qed.

Lemma supprimer_mur_premiere_reference_witness :
  exists avant apres,
    [2%positive; 1%positive; 3%positive; 1%positive]
    = avant ++ 1%positive :: apres
    /\ ~ In 1%positive avant
    /\ Memoire.supprimer_mur
         (Piece.mk "p-1" "Salon" 5 4 2.5 20 50
                   [2%positive; 1%positive; 3%positive; 1%positive]
                   [4%positive] [])
         1%positive
       = Retourne
           (Piece.mk "p-1" "Salon" 5 4 2.5 20 50 (avant ++ apres)
                     [4%positive] []).
Proof.
  apply (supprimer_mur_premiere_reference
           (Piece.mk "p-1" "Salon" 5 4 2.5 20 50
                     [2%positive; 1%positive; 3%positive; 1%positive]
                     [4%positive] [])
           1%positive).
  right; left; reflexivity.
Defined.

(** X22. Removing a wall that the room does not refer to raises
    [ValueError], and only then does the removal fail. *)
Theorem supprimer_mur_absent (piece : Piece.t_ Memoire.adr)
    (a : Memoire.adr) :
  ~ In a (Piece.murs piece) <->
  Memoire.supprimer_mur piece a = Leve "ValueError".
Proof.
  unfold Memoire.supprimer_mur. split.
  - intros Hnin. now rewrite retirer_absent.
  - intros H Hin.
    destruct (retirer_present a (Piece.murs piece) Hin)
      as (avant & apres & _ & _ & E).
    rewrite E in H. discriminate.
Qed.

(** X23. Adding a wall to a room that does not refer to it yet and
    removing it again gives the room back as it was. *)
Theorem ajouter_puis_supprimer_mur (h : gmap Memoire.adr Paroi.t)
    (piece : Piece.t_ Memoire.adr) (a : Memoire.adr) (mur : Paroi.t) :
  h !! a = Some mur ->
  Paroi.type_paroi mur = "MUR" ->
  ~ In a (Piece.murs piece) ->
  exists piece',
    Memoire.ajouter_paroi h piece a = Some (Retourne piece')
    /\ Piece.murs piece' = Piece.murs piece ++ [a]
    /\ Memoire.supprimer_mur piece' a = Retourne piece.
Proof.
  intros Hmur Htype Hnin.
  unfold Memoire.ajouter_paroi. rewrite Hmur. cbn.
  unfold Piece.ranger. rewrite Htype. cbn.
  eexists. split; [reflexivity|]. split; [reflexivity|].
  unfold Memoire.supprimer_mur. cbn.
  assert (E : Memoire.retirer a (Piece.murs piece ++ [a])
              = Retourne (Piece.murs piece)).
  { induction (Piece.murs piece) as [|y l IH]; cbn.
    - destruct (decide (a = a)); [reflexivity|congruence].
    - destruct (decide (y = a)) as [->|Hne].
      + exfalso. apply Hnin. now left.
      + rewrite IH; [reflexivity|]. intros H. apply Hnin. now right. }
  rewrite E. destruct piece; reflexivity.
Qed.

Lemma supprimer_mur_absent_witness :
  ~ In 5%positive [2%positive; 1%positive]
  /\ Memoire.supprimer_mur
       (Piece.mk "p-1" "Salon" 5 4 2.5 20 50 [2%positive; 1%positive] [] [])
       5%positive
     = Leve "ValueError".
Proof.
  assert (H : ~ In 5%positive [2%positive; 1%positive]).
  { intros [H|[H|[]]]; discriminate. }
  split; [exact H|].
  apply (proj1 (supprimer_mur_absent
                  (Piece.mk "p-1" "Salon" 5 4 2.5 20 50
                            [2%positive; 1%positive] [] [])
                  5%positive)).
  exact H.
Defined.

Lemma ajouter_puis_supprimer_mur_witness :
  exists mur,
    Exemples.mur_nord Spec.Outdoor = Retourne mur
    /\ exists piece',
         Memoire.ajouter_paroi
           (<[3%positive := mur]> ∅)
           (Piece.mk "p-1" "Salon" 5 4 2.5 20 50 [2%positive] [] [])
           3%positive
         = Some (Retourne piece')
         /\ Piece.murs piece' = [2%positive; 3%positive]
         /\ Memoire.supprimer_mur piece' 3%positive
            = Retourne (Piece.mk "p-1" "Salon" 5 4 2.5 20 50 [2%positive]
                                 [] []).
Proof.
  eexists. split; [reflexivity|].
  match goal with
  | |- exists piece', Memoire.ajouter_paroi ?h ?p ?a = _ /\ _ =>
      apply (ajouter_puis_supprimer_mur h p a _ (lookup_insert_eq _ _ _))
  end.
  - reflexivity.
  - intros [H|[]]; discriminate.
Defined.

(** ** Shared walls *)

(** X24. After a glazing unit is added to the wall at an address, every
    room reads the wall with its new unit wherever it refers to that
    address, in its walls, floors or ceilings and as many times as it
    refers to it, and reads every other element as before. *)
Theorem ajouter_menuiserie_partage (w : Memoire.monde) (a : Memoire.adr)
    (men : Menuiserie.t) (self : Paroi.t) :
  Memoire.tas w !! a = Some self ->
  exists w',
    Memoire.ajouter_menuiserie a men w = Some (Retourne w')
    /\ forall piece : Piece.t_ Memoire.adr,
         let vu := fun x : Memoire.adr =>
           if decide (x = a)
           then Some (Paroi.avec_menuiseries
                        self (Paroi.menuiseries self ++ [men]))
           else Memoire.tas w !! x in
         Piece.murs (Memoire.charger_piece (Memoire.tas w') piece)
         = omap vu (Piece.murs piece)
         /\ Piece.planchers (Memoire.charger_piece (Memoire.tas w') piece)
            = omap vu (Piece.planchers piece)
         /\ Piece.plafonds (Memoire.charger_piece (Memoire.tas w') piece)
            = omap vu (Piece.plafonds piece).
Proof.
  intros Hself. eexists. split.
  { unfold Memoire.ajouter_menuiserie. rewrite Hself. reflexivity. }
  intros piece vu. cbn.
  assert (Hvu : forall l : list Memoire.adr,
            omap (fun x =>
                    <[a := Paroi.avec_menuiseries
                             self (Paroi.menuiseries self ++ [men])]>
                      (Memoire.tas w) !! x) l
            = omap vu l).
  { assert (Hx : forall x,
              <[a := Paroi.avec_menuiseries
                       self (Paroi.menuiseries self ++ [men])]>
                (Memoire.tas w) !! x = vu x).
    { intros x. unfold vu. rewrite lookup_insert.
      destruct (decide (x = a)) as [->|E];
        [rewrite decide_True by reflexivity
        |rewrite decide_False by congruence]; reflexivity. }
    induction l as [|x l IH]; [reflexivity|].
    cbn. rewrite Hx, IH. reflexivity. }
  repeat split; apply Hvu.
Qed.

Lemma ajouter_menuiserie_partage_witness :
  exists w,
    Exemples.monde_partage = Some w
    /\ exists fen,
         Menuiserie.init "f-1" "Fenetre 1" 1.0 1.2 "Simple vitrage"
         = Retourne fen
         /\ exists w',
              Memoire.ajouter_menuiserie 1%positive fen w
              = Some (Retourne w')
              /\ map (fun r =>
                        map Paroi.menuiseries
                            (Piece.murs
                               (Memoire.charger_piece (Memoire.tas w') r)))
                     (Projet.pieces (Memoire.projet w))
                 = [ [[fen]]; [[fen]; []] ].
Proof.
  eexists. split; [reflexivity|].
  eexists. split; [reflexivity|].
  match goal with
  | |- exists w', Memoire.ajouter_menuiserie ?a ?fen ?w = _ /\ _ =>
      destruct (ajouter_menuiserie_partage w a fen _ eq_refl)
        as (w' & Hcall & Hvu)
  end.
  exists w'. split; [exact Hcall|].
  cbn [map Projet.pieces Memoire.projet].
  repeat match goal with
         | |- context [Piece.murs (Memoire.charger_piece (Memoire.tas w') ?r)]
           => rewrite (proj1 (Hvu r))
         end.
  reflexivity.
Defined.
